(** * Thriftbooks-scrape: the listing collector, the detail extractor and
      the CSV writer of [main.py], embedded as Rocq functions.

    The browser is the environment of the program.  It is modelled by what
    the program observes of it: a listing page is the outcome of each
    Selenium call [get_book_links] makes on it, a detail page the outcome
    of each call [scrape_book_details] makes on it.  A Selenium call that
    raises an exception is the constructor [Raised]; the [try]/[except]
    blocks of the source are written out as matches on it.  Only exceptions
    derived from Python's [Exception] are modelled; [print] and [sleep] are
    taken not to fail and leave no trace in the model. *)

From Stdlib Require Import String Ascii List ZArith Bool Lia.
Import ListNotations.

Local Open Scope string_scope.
Local Open Scope list_scope.

(** ** Python strings

    A [str] is modelled by [string]; a character is a code point below 256. *)

Module PyStr.

(** [s.startswith(p)] *)
Fixpoint startswith (p s : string) : bool :=
  match p, s with
  | EmptyString, _ => true
  | String _ _, EmptyString => false
  | String a p', String b s' => Ascii.eqb a b && startswith p' s'
  end.

(** [p in s] *)
Fixpoint contains (p s : string) : bool :=
  startswith p s ||
  match s with
  | EmptyString => false
  | String _ s' => contains p s'
  end.

(** [s.replace(p, "")]: every occurrence of [p], found from the left and
    without overlap, is dropped.  [skip] counts the characters of the
    occurrence under way that are still to be dropped. *)
Fixpoint remove_from (p s : string) (skip : nat) : string :=
  match s with
  | EmptyString => EmptyString
  | String c s' =>
      match skip with
      | S k => remove_from p s' k
      | O => if startswith p s
             then remove_from p s' (String.length p - 1)
             else String c (remove_from p s' 0)
      end
  end.

Definition remove (p s : string) : string :=
  match p with
  | EmptyString => s
  | String _ _ => remove_from p s 0
  end.

(** The characters [str.isspace] accepts, among the code points below 256. *)
Definition isspace (c : ascii) : bool :=
  let n := nat_of_ascii c in
  ((9 <=? n)%nat && (n <=? 13)%nat) || ((28 <=? n)%nat && (n <=? 32)%nat)
  || (n =? 133)%nat || (n =? 160)%nat.

Fixpoint lstrip (s : string) : string :=
  match s with
  | EmptyString => EmptyString
  | String c s' => if isspace c then lstrip s' else s
  end.

(** [rstrip] keeps a character when it is not a space or when something
    is left after it. *)
Fixpoint rstrip (s : string) : string :=
  match s with
  | EmptyString => EmptyString
  | String c s' =>
      match rstrip s' with
      | EmptyString => if isspace c then EmptyString else String c EmptyString
      | r => String c r
      end
  end.

(** [s.strip()] *)
Definition strip (s : string) : string := rstrip (lstrip s).

(** Truth value of a [str]: the empty string is false. *)
Definition truthy (s : string) : bool :=
  match s with EmptyString => false | _ => true end.

Fixpoint drop (n : nat) (s : string) : string :=
  match n, s with
  | O, _ => s
  | S _, EmptyString => EmptyString
  | S k, String _ s' => drop k s'
  end.

End PyStr.

(** ** Python values, exceptions and dictionaries *)

(** What a field of a row can hold: [None] or a [str]. *)
Inductive pyval : Type :=
| PyNone
| PyStr (s : string).

(** [get_attribute] gives [None] for an attribute the element lacks. *)
Definition of_attribute (a : option string) : pyval :=
  match a with
  | None => PyNone
  | Some s => PyStr s
  end.

(** The result of a call that may raise. *)
Inductive outcome (A : Type) : Type :=
| Ok (a : A)
| Raised.

Arguments Ok {A} a.
Arguments Raised {A}.

Definition bind {A B : Type} (m : outcome A) (k : A -> outcome B) : outcome B :=
  match m with
  | Ok a => k a
  | Raised => Raised
  end.

Notation "x <- m ;; k" := (bind m (fun x => k))
  (at level 61, m at next level, right associativity).
Notation "m ;;; k" := (bind m (fun _ => k))
  (at level 61, right associativity).

(** [x in l] on a list of strings. *)
Definition py_in (x : string) (l : list string) : bool :=
  existsb (String.eqb x) l.

(** A [dict] with [str] keys keeps its keys in insertion order; storing
    under a key it already has replaces the value where the key stands. *)
Module Dict.

Definition t : Type := list (string * pyval).

Definition empty : t := [].

Fixpoint set (k : string) (v : pyval) (d : t) : t :=
  match d with
  | [] => [(k, v)]
  | (k', v') :: d' =>
      if String.eqb k k' then (k', v) :: d' else (k', v') :: set k v d'
  end.

Fixpoint get (k : string) (d : t) : option pyval :=
  match d with
  | [] => None
  | (k', v') :: d' => if String.eqb k k' then Some v' else get k d'
  end.

Definition keys (d : t) : list string := map fst d.

(** [{**d, **e}] and [d.update(e)] *)
Definition update (d e : t) : t :=
  fold_left (fun acc kv => set (fst kv) (snd kv) acc) e d.

End Dict.

(** ** [make_driver] *)

(** The [Options] object, as far as the program fills it. *)
Record chrome_options : Type := { arguments : list string }.

Definition Options : chrome_options := {| arguments := [] |}.

Definition add_argument (a : string) (o : chrome_options) : chrome_options :=
  {| arguments := arguments o ++ [a] |}.

(** The session is determined by the options Chrome is started with. *)
Definition make_driver (headless : bool) : chrome_options :=
  let chrome_options := Options in
  let chrome_options := add_argument "--remote-debugging-port=9222" chrome_options in
  chrome_options.

(** ** [get_book_links] *)

(** The "next page" control, once it is found clickable. *)
Record next_button : Type := {
  attr_disabled : outcome (option string);
  attr_aria_disabled : outcome (option string);
  click : outcome unit
}.

(** One listing page, as the loop body observes it: the wait for the
    items (a timeout raises), [find_elements] with the [href] read of each
    element, and the wait for the next control. *)
Record listing_page : Type := {
  items_wait : outcome unit;
  link_elements : outcome (list (outcome (option string)));
  next_wait : outcome next_button
}.

(** The browser of a collection run: the page shown after each click. *)
Definition listing_browser : Type := nat -> listing_page.

(** How a piece of the loop ends: it falls through to what follows, leaves
    the [while] by [break], leaves the function by [return], or raises. *)
Inductive signal : Type := Next | Break | Return | Raise.

(** [max_links is not None and len(book_links) >= max_links] *)
Definition limit_reached (max_links : option Z) (book_links : list string) : bool :=
  match max_links with
  | None => false
  | Some n => (Z.of_nat (length book_links) >=? n)%Z
  end.

(** [href and href not in book_links]: the link to append, if any. *)
Definition fresh_href (href : option string) (book_links : list string)
    : option string :=
  match href with
  | None => None
  | Some h => if PyStr.truthy h && negb (py_in h book_links) then Some h else None
  end.

(** The [for el in link_elements] loop over the list [book_links]. *)
Fixpoint scan_elements (max_links : option Z)
    (els : list (outcome (option string))) (book_links : list string)
    : signal * list string :=
  match els with
  | [] => (Next, book_links)
  | Raised :: _ => (Raise, book_links)
  | Ok href :: rest =>
      match fresh_href href book_links with
      | Some h =>
          let book_links := book_links ++ [h] in
          if limit_reached max_links book_links then (Return, book_links)
          else scan_elements max_links rest book_links
      | None => scan_elements max_links rest book_links
      end
  end.

Definition is_disabled (b : next_button) : outcome bool :=
  d <- attr_disabled b ;;
  match d with
  | Some _ => Ok true
  | None =>
      a <- attr_aria_disabled b ;;
      Ok (match a with Some s => String.eqb s "true" | None => false end)
  end.

(** The inner [try]: any exception in it ends the loop by [break]. *)
Definition advance (p : listing_page) : signal :=
  match (b <- next_wait p ;;
         d <- is_disabled b ;;
         if d then Ok Break else (click b ;;; Ok Next)) with
  | Ok s => s
  | Raised => Break
  end.

(** One turn of the [while True] body. *)
Definition visit_page (max_links : option Z) (p : listing_page)
    (book_links : list string) : signal * list string :=
  match items_wait p with
  | Raised => (Raise, book_links)
  | Ok _ =>
      match link_elements p with
      | Raised => (Raise, book_links)
      | Ok els =>
          match scan_elements max_links els book_links with
          | (Next, book_links) => (advance p, book_links)
          | stop => stop
          end
      end
  end.

(** The [while True] loop; [fuel] bounds the pages visited, [None] says
    the loop is still running when the fuel is spent. *)
Fixpoint pages_loop (fuel : nat) (drv : listing_browser) (max_links : option Z)
    (page : nat) (book_links : list string) : option (signal * list string) :=
  match fuel with
  | O => None
  | S fuel' =>
      match visit_page max_links (drv page) book_links with
      | (Next, book_links) => pages_loop fuel' drv max_links (S page) book_links
      | stop => Some stop
      end
  end.

(** The whole function: the outer [try] turns an exception of the loop
    into the ordinary [return book_links] of the last line. *)
Definition get_book_links (fuel : nat) (drv : listing_browser)
    (max_links : option Z) : option (outcome (list string)) :=
  match pages_loop fuel drv max_links 0 [] with
  | None => None
  | Some (Raise, book_links) => Some (Ok book_links)
  | Some (_, book_links) => Some (Ok book_links)
  end.

(** ** [scrape_book_details] *)

Definition formats : list string :=
  ["Hardcover"; "Paperback"; "Library Binding";
   "Like New"; "Very Good"; "Good"; "Acceptable"; "New"].

Definition NA : string := "N/A".

(** One detail page, as the loop body observes it. *)
Record detail_page : Type := {
  navigate : outcome unit;
  title_wait : outcome unit;
  title_text : outcome string;
  rating_content : outcome (option string);
  price_buttons : outcome (list (outcome string))
}.

(** The browser of an extraction run: what the [i]-th navigation of the
    run, to [link], shows. *)
Definition detail_browser : Type := nat -> string -> detail_page.

(** [links[:n]] *)
Definition slice_to (n : Z) (links : list string) : list string :=
  if (0 <=? n)%Z then firstn (Z.to_nat n) links
  else firstn (length links - Z.to_nat (- n)) links.

(** [{fmt: "N/A" for fmt in formats}] *)
Definition initial_prices : Dict.t :=
  fold_left (fun d fmt => Dict.set fmt (PyStr NA) d) formats Dict.empty.

(** [clean_price if clean_price else "N/A"] *)
Definition clean_price (fmt text : string) : string :=
  let clean := PyStr.strip (PyStr.remove fmt text) in
  if PyStr.truthy clean then clean else NA.

Definition matches (fmt text : string) : bool :=
  PyStr.startswith fmt text || PyStr.contains fmt text.

(** The body of [for fmt in ...] for one button text, over any list of
    labels. *)
Definition store_in (fmts : list string) (text : string) (prices_dict : Dict.t)
    : Dict.t :=
  fold_left
    (fun d fmt =>
       if matches fmt text then Dict.set fmt (PyStr (clean_price fmt text)) d
       else d)
    fmts prices_dict.

(** The [for fmt in formats] loop for one button text. *)
Definition store_formats (text : string) (prices_dict : Dict.t) : Dict.t :=
  store_in formats text prices_dict.

(** The [for btn in price_buttons] loop; an exception leaves the
    dictionary as the buttons before it have filled it. *)
Fixpoint read_buttons (btns : list (outcome string)) (prices_dict : Dict.t)
    : outcome unit * Dict.t :=
  match btns with
  | [] => (Ok tt, prices_dict)
  | Raised :: _ => (Raised, prices_dict)
  | Ok raw :: rest => read_buttons rest (store_formats (PyStr.strip raw) prices_dict)
  end.

(** The prices block with its [try] / [except Exception: pass]. *)
Definition prices_of (p : detail_page) : Dict.t :=
  let prices_dict := initial_prices in
  match price_buttons p with
  | Raised => prices_dict
  | Ok btns => snd (read_buttons btns prices_dict)
  end.

(** The rating block with its bare [except]. *)
Definition rating_of (p : detail_page) : pyval :=
  match rating_content p with
  | Ok content => of_attribute content
  | Raised => PyStr NA
  end.

Definition make_row (title : string) (rating : pyval) (link : string)
    (prices_dict : Dict.t) : Dict.t :=
  Dict.update
    [("Title", PyStr title); ("Rating", rating); ("URL", PyStr link)]
    prices_dict.

(** The body of the outer [try] up to the row it appends. *)
Definition scrape_link (p : detail_page) (link : string) : outcome Dict.t :=
  navigate p ;;;
  title_wait p ;;;
  t <- title_text p ;;
  let title := PyStr.strip t in
  let rating := rating_of p in
  let prices_dict := prices_of p in
  Ok (make_row title rating link prices_dict).

(** State of an extraction run: the links the browser was sent to and the
    rows appended so far. *)
Record run : Type := { history : list string; results : list Dict.t }.

(** One turn of [for i, link in enumerate(links, start=1)]. *)
Definition visit_link (drv : detail_browser) (i : nat) (link : string)
    (st : run) : run :=
  {| history := history st ++ [link];
     results := match scrape_link (drv i link) link with
                | Ok row => results st ++ [row]
                | Raised => results st
                end |}.

Fixpoint details_loop (drv : detail_browser) (i : nat) (links : list string)
    (st : run) : run :=
  match links with
  | [] => st
  | link :: rest => details_loop drv (S i) rest (visit_link drv i link st)
  end.

(** [if max_links is not None: links = links[:max_links]] *)
Definition limit_links (max_links : option Z) (links : list string)
    : list string :=
  match max_links with
  | Some n => slice_to n links
  | None => links
  end.

Definition fresh_run : run := {| history := []; results := [] |}.

Definition scrape_run (drv : detail_browser) (links : list string)
    (max_links : option Z) : run :=
  let links := limit_links max_links links in
  details_loop drv 1 links fresh_run.

Definition scrape_book_details (drv : detail_browser) (links : list string)
    (max_links : option Z) : list Dict.t :=
  results (scrape_run drv links max_links).

(** ** [save_to_csv] *)

(** A CSV file is kept as its rows of fields; quoting is the [csv]
    module's. *)
Definition csv_file : Type := list (list string).

(** How the writer renders a value: [None] as the empty field. *)
Definition field_text (v : pyval) : string :=
  match v with
  | PyNone => ""
  | PyStr s => s
  end.

(** [DictWriter._dict_to_list]: a key outside [fieldnames] raises
    [ValueError], a missing one is written as the empty [restval]. *)
Definition dict_to_list (fieldnames : list string) (row : Dict.t)
    : outcome (list string) :=
  if forallb (fun k => py_in k fieldnames) (Dict.keys row)
  then Ok (map (fun k => match Dict.get k row with
                         | Some v => field_text v
                         | None => ""
                         end) fieldnames)
  else Raised.

(** [writer.writerows(data)] onto the rows already in the file. *)
Fixpoint writerows (fieldnames : list string) (data : list Dict.t)
    (file : csv_file) : outcome unit * csv_file :=
  match data with
  | [] => (Ok tt, file)
  | row :: rest =>
      match dict_to_list fieldnames row with
      | Ok fields => writerows fieldnames rest (file ++ [fields])
      | Raised => (Raised, file)
      end
  end.

(** The function with the file it leaves: [None] when it opens none. *)
Definition save_to_csv (data : list Dict.t) : outcome unit * option csv_file :=
  match data with
  | [] => (Ok tt, None)
  | first :: _ =>
      let keys := Dict.keys first in
      let file := [keys] in
      let (r, file) := writerows keys data file in
      (r, Some file)
  end.

(** ** Reference notions the properties are stated with *)

(** A list without its repetitions, every element at its first place. *)
Fixpoint first_seen (l : list string) : list string :=
  match l with
  | [] => []
  | x :: r => x :: filter (fun y => negb (String.eqb y x)) (first_seen r)
  end.

(** The non-empty links the elements of a page carry, in page order. *)
Definition element_hrefs (els : list (outcome (option string))) : list string :=
  flat_map (fun el => match el with
                      | Ok (Some h) => if PyStr.truthy h then [h] else []
                      | _ => []
                      end) els.

Definition page_hrefs (p : listing_page) : list string :=
  match link_elements p with
  | Ok els => element_hrefs els
  | Raised => []
  end.

(** The links of the pages [page], [page+1], ..., [n] pages in all. *)
Definition listing_hrefs (drv : listing_browser) (page n : nat) : list string :=
  flat_map (fun i => page_hrefs (drv i)) (seq page n).

(** [arrives drv max_links page book_links]: the [while] loop starts its
    turn on page number [page] with [book_links] collected. *)
Inductive arrives (drv : listing_browser) (max_links : option Z)
    : nat -> list string -> Prop :=
| arrives_first : arrives drv max_links 0 []
| arrives_next page book_links book_links' :
    arrives drv max_links page book_links ->
    visit_page max_links (drv page) book_links = (Next, book_links') ->
    arrives drv max_links (S page) book_links'.

(** The rating lookup failed, or the page gives no rating value. *)
Definition rating_missing (p : detail_page) : Prop :=
  rating_content p = Raised \/ rating_content p = Ok None.

(** The header the output file is to have. *)
Definition header : list string := "Title" :: "Rating" :: "URL" :: formats.

(** ** Pages of the examples *)

Definition enabled_next : next_button :=
  {| attr_disabled := Ok None; attr_aria_disabled := Ok None; click := Ok tt |}.

Definition disabled_next : next_button :=
  {| attr_disabled := Ok (Some "true"); attr_aria_disabled := Ok None;
     click := Ok tt |}.

Definition listing (hrefs : list string) (next : next_button) : listing_page :=
  {| items_wait := Ok tt;
     link_elements := Ok (map (fun h => Ok (Some h)) hrefs);
     next_wait := Ok next |}.

Definition timed_out : listing_page :=
  {| items_wait := Raised; link_elements := Ok []; next_wait := Raised |}.

(** Two pages, [A B C] then [C D] with the next control disabled. *)
Definition two_pages : listing_browser :=
  fun page => match page with
              | O => listing ["A"; "B"; "C"] enabled_next
              | _ => listing ["C"; "D"] disabled_next
              end.

(** A first page [A B], then a page that never shows its items. *)
Definition second_page_missing : listing_browser :=
  fun page => match page with
              | O => listing ["A"; "B"] enabled_next
              | _ => timed_out
              end.

(** A single page with the single link [A]. *)
Definition one_link : listing_browser :=
  fun _ => listing ["A"] disabled_next.

Definition book_page (title : string) (rating : outcome (option string))
    (buttons : list string) : detail_page :=
  {| navigate := Ok tt; title_wait := Ok tt; title_text := Ok title;
     rating_content := rating; price_buttons := Ok (map Ok buttons) |}.

Definition no_title_page : detail_page :=
  {| navigate := Ok tt; title_wait := Raised; title_text := Raised;
     rating_content := Raised; price_buttons := Raised |}.

Definition two_buttons : detail_page :=
  book_page " Dune " (Ok (Some "4.5")) ["Very Good $5"; "Good $3"].

Definition rated_na : detail_page :=
  book_page "Dune" (Ok (Some "N/A")) [].

(** Every link shows [two_buttons], except [bad], whose title never
    appears. *)
Definition shop : detail_browser :=
  fun _ link => if String.eqb link "bad" then no_title_page else two_buttons.

(** ** [main] *)

(** The site as a whole run meets it: the first navigation, to the
    listing, then the listing pages and the detail pages. *)
Record site : Type := {
  start_page : outcome unit;
  listing_of : listing_browser;
  details_of : detail_browser
}.

(** What a run of [main] leaves: the options the browser was started
    with, whether an exception left [main], the file written, and whether
    [driver.quit()] was called. *)
Record report : Type := {
  session : chrome_options;
  finished : outcome unit;
  written : option csv_file;
  quit : bool
}.

(** [main], with its [try] / [finally]; [None] while the collection loop
    is still running. *)
Definition main (fuel : nat) (w : site) : option report :=
  let driver := make_driver false in
  match start_page w with
  | Raised =>
      Some {| session := driver; finished := Raised; written := None;
              quit := true |}
  | Ok _ =>
      match get_book_links fuel (listing_of w) None with
      | None => None
      | Some Raised =>
          Some {| session := driver; finished := Raised; written := None;
                  quit := true |}
      | Some (Ok book_links) =>
          let book_data := scrape_book_details (details_of w) book_links None in
          let (r, file) := save_to_csv book_data in
          Some {| session := driver; finished := r; written := file;
                  quit := true |}
      end
  end.

(** ** Further reference notions *)

(** A list cut to the bound, when there is one. *)
Definition up_to (max_links : option Z) (l : list string) : list string :=
  match max_links with
  | None => l
  | Some n => firstn (Z.to_nat n) l
  end.

(** The bound is not yet reached, if there is one. *)
Definition room (max_links : option Z) (book_links : list string) : Prop :=
  match max_links with
  | None => True
  | Some n => (Z.of_nat (length book_links) < n)%Z
  end.

(** A price as the program stores it: a text that is not empty and has
    no space at either end. *)
Definition stored_price (v : pyval) : Prop :=
  exists s, v = PyStr s /\ s <> "" /\ PyStr.strip s = s.

(** The links of a run whose page gave a row, in order; [i] numbers the
    visits. *)
Fixpoint kept_links (drv : detail_browser) (i : nat) (links : list string)
    : list string :=
  match links with
  | [] => []
  | link :: rest =>
      match scrape_link (drv i link) link with
      | Ok _ => link :: kept_links drv (S i) rest
      | Raised => kept_links drv (S i) rest
      end
  end.

(** The fields of a row in the order of its keys, as the writer renders
    them. *)
Definition row_fields (row : Dict.t) : list string :=
  map (fun kv => field_text (snd kv)) row.


(** A site whose listing is [two_pages] and whose detail pages are those
    of [shop]. *)
Definition small_site : site :=
  {| start_page := Ok tt; listing_of := two_pages; details_of := shop |}.

(** The page [p] with other price buttons. *)
Definition with_buttons (p : detail_page)
    (buttons : outcome (list (outcome string))) : detail_page :=
  {| navigate := navigate p; title_wait := title_wait p;
     title_text := title_text p; rating_content := rating_content p;
     price_buttons := buttons |}.

(** A page whose second button cannot be read. *)
Definition broken_button : detail_page :=
  {| navigate := Ok tt; title_wait := Ok tt; title_text := Ok "Dune";
     rating_content := Ok (Some "4.5");
     price_buttons := Ok [Ok "Good $3"; Raised; Ok "New $9"] |}.


(** A first page whose third element has gone stale. *)
Definition stale_third : listing_browser :=
  fun _ =>
    {| items_wait := Ok tt;
       link_elements := Ok [Ok (Some "A"); Ok (Some "B"); Raised; Ok (Some "D")];
       next_wait := Ok enabled_next |}.

(** * Properties *)

(** ** Strings *)

Example startswith_very_good : PyStr.startswith "Very Good" "Very Good $5" = true.
Proof. reflexivity. Qed.

Example contains_good : PyStr.contains "Good" "Very Good $5" = true.
Proof. reflexivity. Qed.

Example contains_new : PyStr.contains "New" "Very Good $5" = false.
Proof. reflexivity. Qed.

Example remove_good : PyStr.remove "Good" "Very Good $5" = "Very  $5".
Proof. reflexivity. Qed.

Example remove_twice : PyStr.remove "aa" "aaaXaa" = "aX".
Proof. reflexivity. Qed.

Example strip_price : PyStr.strip "  $5 " = "$5".
Proof. reflexivity. Qed.

Example strip_inner : PyStr.strip " a b  " = "a b".
Proof. reflexivity. Qed.

Example strip_unicode_space : PyStr.strip (String (ascii_of_nat 160) "x") = "x".
Proof. reflexivity. Qed.

Lemma remove_from_drop (p s : string) (k : nat) :
  PyStr.remove_from p s k = PyStr.remove_from p (PyStr.drop k s) 0.
Proof.
  revert k; induction s as [|c s IH]; intros [|k]; simpl; try reflexivity.
  apply IH.
Qed.

(** [remove] follows the loop of [str.replace]: at an occurrence of [p]
    the occurrence is dropped whole, elsewhere one character is kept. *)
Lemma remove_unfold (a : ascii) (p' : string) (c : ascii) (s : string) :
  let p := String a p' in
  PyStr.remove p (String c s) =
    if PyStr.startswith p (String c s)
    then PyStr.remove p (PyStr.drop (String.length p) (String c s))
    else String c (PyStr.remove p s).
Proof.
  cbv zeta. unfold PyStr.remove.
  change (PyStr.remove_from (String a p') (String c s) 0)
    with (if PyStr.startswith (String a p') (String c s)
          then PyStr.remove_from (String a p') s (String.length (String a p') - 1)
          else String c (PyStr.remove_from (String a p') s 0)).
  destruct (PyStr.startswith (String a p') (String c s)); [|reflexivity].
  rewrite remove_from_drop. simpl. now rewrite Nat.sub_0_r.
Qed.

Lemma startswith_contains (p s : string) :
  PyStr.startswith p s = true -> PyStr.contains p s = true.
Proof.
  intros H. destruct s; simpl; rewrite H; reflexivity.
Qed.

(** The test [text.startswith(fmt) or fmt in text] is the test [fmt in text]. *)
Lemma matches_contains (fmt text : string) :
  matches fmt text = PyStr.contains fmt text.
Proof.
  unfold matches.
  destruct (PyStr.startswith fmt text) eqn:E; [|reflexivity].
  now rewrite (startswith_contains _ _ E).
Qed.

Lemma py_in_In (x : string) (l : list string) : py_in x l = true <-> In x l.
Proof.
  unfold py_in. rewrite existsb_exists. split.
  - intros [y [Hy E]]. apply String.eqb_eq in E. now subst.
  - intros H. exists x. split; [assumption | apply String.eqb_refl].
Qed.

Lemma py_in_not_In (x : string) (l : list string) : py_in x l = false <-> ~ In x l.
Proof.
  rewrite <- py_in_In. destruct (py_in x l); split; congruence.
Qed.

(** ** Dictionaries *)

Lemma get_set (k k' : string) (v : pyval) (d : Dict.t) :
  Dict.get k (Dict.set k' v d) =
    if String.eqb k k' then Some v else Dict.get k d.
Proof.
  induction d as [|[k0 v0] d IH]; simpl.
  - reflexivity.
  - destruct (String.eqb k' k0) eqn:E0; simpl.
    + apply String.eqb_eq in E0; subst k0.
      destruct (String.eqb k k'); reflexivity.
    + rewrite IH. destruct (String.eqb k k0) eqn:E1; [|reflexivity].
      apply String.eqb_eq in E1; subst k0.
      now rewrite String.eqb_sym, E0.
Qed.

(** Storing under a key the dictionary has leaves the keys as they are. *)
Lemma keys_set_present (k : string) (v : pyval) (d : Dict.t) :
  In k (Dict.keys d) -> Dict.keys (Dict.set k v d) = Dict.keys d.
Proof.
  unfold Dict.keys.
  induction d as [|[k0 v0] d IH]; simpl; [tauto|].
  intros H. destruct (String.eqb k k0) eqn:E; simpl; [reflexivity|].
  f_equal. apply IH. destruct H as [H|H]; [|assumption].
  subst k0. now rewrite String.eqb_refl in E.
Qed.

Lemma get_some_key (k : string) (d : Dict.t) (v : pyval) :
  Dict.get k d = Some v -> In k (Dict.keys d).
Proof.
  unfold Dict.keys.
  induction d as [|[k0 v0] d IH]; simpl; [discriminate|].
  destruct (String.eqb k k0) eqn:E; intros H.
  - left. apply String.eqb_eq in E. now subst.
  - right. now apply IH.
Qed.

(** ** [make_driver] *)

(** C9: [make_driver] starts Chrome with the same options whatever
    [headless] is: the one argument [--remote-debugging-port=9222].  The
    runs with [True] and with [False] agree, and no argument of either
    mentions [headless]. *)
Theorem make_driver_ignores_headless :
  make_driver true = make_driver false /\
  forall headless : bool,
    arguments (make_driver headless) = ["--remote-debugging-port=9222"] /\
    forallb (fun a => negb (PyStr.contains "headless" a))
            (arguments (make_driver headless)) = true.
Proof.
  split; [reflexivity|]. intros headless. split; reflexivity.
Qed.

(** ** First occurrences *)

Lemma filter_filter {A : Type} (f g : A -> bool) (l : list A) :
  filter f (filter g l) = filter (fun x => g x && f x) l.
Proof.
  induction l as [|x l IH]; simpl; [reflexivity|].
  destruct (g x); simpl; [destruct (f x)|]; now rewrite ?IH.
Qed.

Lemma first_seen_app (a b : list string) :
  first_seen (a ++ b) =
    first_seen a ++ filter (fun y => negb (py_in y a)) (first_seen b).
Proof.
  induction a as [|x a IH]; simpl.
  - symmetry. apply forallb_filter_id. now apply forallb_forall.
  - f_equal. rewrite IH, filter_app, filter_filter. f_equal.
    apply filter_ext. intros y. simpl.
    destruct (String.eqb y x), (py_in y a); reflexivity.
Qed.

Lemma first_seen_In (x : string) (l : list string) :
  In x (first_seen l) <-> In x l.
Proof.
  induction l as [|y l IH]; simpl; [tauto|].
  rewrite filter_In, IH, negb_true_iff, String.eqb_neq.
  destruct (string_dec y x); [tauto|]. intuition congruence.
Qed.

Lemma first_seen_NoDup (l : list string) : NoDup (first_seen l).
Proof.
  induction l as [|x l IH]; simpl; constructor.
  - rewrite filter_In, negb_true_iff, String.eqb_neq. tauto.
  - now apply NoDup_filter.
Qed.

Lemma py_in_first_seen (x : string) (l : list string) :
  py_in x (first_seen l) = py_in x l.
Proof.
  destruct (py_in x l) eqn:E.
  - now apply py_in_In, first_seen_In, py_in_In.
  - apply py_in_not_In. rewrite first_seen_In. now apply py_in_not_In.
Qed.

(** Reading one more link: it is appended unless it was met before. *)
Lemma first_seen_snoc (l : list string) (h : string) :
  first_seen (l ++ [h]) =
    if py_in h (first_seen l) then first_seen l else first_seen l ++ [h].
Proof.
  rewrite first_seen_app, py_in_first_seen. simpl.
  destruct (py_in h l); simpl; [apply app_nil_r | reflexivity].
Qed.

(** ** [get_book_links]: what is collected *)

Lemma fresh_href_some (href : option string) (book_links : list string) (h : string) :
  fresh_href href book_links = Some h ->
  href = Some h /\ PyStr.truthy h = true /\ py_in h book_links = false.
Proof.
  unfold fresh_href. destruct href as [h0|]; [|discriminate].
  destruct (PyStr.truthy h0) eqn:T; [|discriminate].
  destruct (py_in h0 book_links) eqn:I; [discriminate|].
  simpl. intros [= ->]. auto.
Qed.

(** A link already collected is passed over: the list, and so its length,
    stays as it was and the loop goes on to the next element. *)
Lemma duplicate_skipped (max_links : option Z) (h : string)
    (rest : list (outcome (option string))) (book_links : list string) :
  In h book_links ->
  scan_elements max_links (Ok (Some h) :: rest) book_links =
    scan_elements max_links rest book_links.
Proof.
  intros H. apply py_in_In in H. simpl. rewrite H.
  now rewrite andb_false_r.
Qed.

Lemma scan_elements_first_seen (max_links : option Z)
    (els : list (outcome (option string))) :
  forall (read book_links : list string) (sig : signal) (book_links' : list string),
    book_links = first_seen read ->
    scan_elements max_links els book_links = (sig, book_links') ->
    exists hs1 hs2,
      element_hrefs els = hs1 ++ hs2 /\ book_links' = first_seen (read ++ hs1) /\
      (sig = Next -> hs2 = []).
Proof.
  induction els as [|[href|] els IH]; intros read bl sig bl' Hbl Hscan.
  - exists [], []. injection Hscan as <- <-. rewrite !app_nil_r. auto.
  - simpl in Hscan. destruct (fresh_href href bl) as [h|] eqn:F.
    + (* a new link *)
      apply fresh_href_some in F as (-> & T & I).
      assert (Hnew : bl ++ [h] = first_seen (read ++ [h])).
      { rewrite first_seen_snoc, <- Hbl, I. reflexivity. }
      unfold element_hrefs; simpl; rewrite T; fold (element_hrefs els).
      destruct (limit_reached max_links (bl ++ [h])).
      * exists [h], (element_hrefs els). injection Hscan as <- <-.
        split; [reflexivity|]. split; [assumption | discriminate].
      * destruct (IH _ _ _ _ Hnew Hscan) as (hs1 & hs2 & E & R & N).
        exists (h :: hs1), hs2. rewrite E, R, <- app_assoc. auto.
    + unfold element_hrefs; simpl; fold (element_hrefs els).
      destruct href as [h|]; [destruct (PyStr.truthy h) eqn:T|];
        try exact (IH _ _ _ _ Hbl Hscan).
      (* a link met before *)
      unfold fresh_href in F. rewrite T in F. simpl in F.
      destruct (py_in h bl) eqn:I; [|discriminate].
      assert (Hsame : bl = first_seen (read ++ [h])).
      { rewrite first_seen_snoc, <- Hbl, I. reflexivity. }
      destruct (IH _ _ _ _ Hsame Hscan) as (hs1 & hs2 & E & R & N).
      exists (h :: hs1), hs2. rewrite E, R, <- app_assoc. auto.
  - exists [], (element_hrefs (Raised :: els)). injection Hscan as <- <-.
    rewrite !app_nil_r. split; [reflexivity|]. split; [assumption | discriminate].
Qed.

Lemma visit_page_first_seen (max_links : option Z) (p : listing_page)
    (read book_links : list string) (sig : signal) (book_links' : list string) :
  book_links = first_seen read ->
  visit_page max_links p book_links = (sig, book_links') ->
  exists hs1 hs2,
    page_hrefs p = hs1 ++ hs2 /\ book_links' = first_seen (read ++ hs1) /\
    (sig = Next -> hs2 = []).
Proof.
  intros Hbl. unfold visit_page, page_hrefs.
  destruct (items_wait p).
  2:{ intros [= <- <-]. exists [], (match link_elements p with
                                     | Ok els => element_hrefs els
                                     | Raised => []
                                     end).
      rewrite !app_nil_r. split; [reflexivity|]. split; [assumption|discriminate]. }
  destruct (link_elements p) as [els|].
  2:{ intros [= <- <-]. exists [], []. rewrite !app_nil_r.
      split; [reflexivity|]. split; [assumption|discriminate]. }
  destruct (scan_elements max_links els book_links) as [s bl] eqn:S.
  destruct (scan_elements_first_seen _ _ _ _ _ _ Hbl S) as (hs1 & hs2 & E & R & N).
  destruct s; intros [= <- <-]; exists hs1, hs2;
    (split; [assumption|]); (split; [assumption|]);
    solve [intros _; now apply N | discriminate].
Qed.

Lemma listing_hrefs_S (drv : listing_browser) (page n : nat) :
  listing_hrefs drv page (S n) =
    page_hrefs (drv page) ++ listing_hrefs drv (S page) n.
Proof. reflexivity. Qed.

Lemma pages_loop_first_seen (drv : listing_browser) (max_links : option Z)
    (fuel : nat) :
  forall (page : nat) (read book_links : list string) (sig : signal)
         (book_links' : list string),
    book_links = first_seen read ->
    pages_loop fuel drv max_links page book_links = Some (sig, book_links') ->
    exists hs1 hs2,
      listing_hrefs drv page fuel = hs1 ++ hs2 /\
      book_links' = first_seen (read ++ hs1).
Proof.
  induction fuel as [|fuel IH]; intros page read bl sig bl' Hbl Hloop;
    [discriminate|].
  simpl in Hloop. rewrite listing_hrefs_S.
  destruct (visit_page max_links (drv page) bl) as [s bl1] eqn:V.
  destruct (visit_page_first_seen _ _ _ _ _ _ Hbl V) as (hs1 & hs2 & E & R & N).
  assert (Hstop : Some (s, bl1) = Some (sig, bl') ->
                  exists hs1 hs2,
                    page_hrefs (drv page) ++ listing_hrefs drv (S page) fuel
                    = hs1 ++ hs2 /\ bl' = first_seen (read ++ hs1)).
  { intros [= _ <-]. exists hs1, (hs2 ++ listing_hrefs drv (S page) fuel).
    rewrite E, app_assoc. auto. }
  destruct s; try exact (Hstop Hloop).
  rewrite (N eq_refl), app_nil_r in E.
  destruct (IH _ _ _ _ _ R Hloop) as (hs1' & hs2' & E' & R').
  exists (hs1 ++ hs1'), hs2'. rewrite E, E', R', !app_assoc. auto.
Qed.

(** C3: the list [get_book_links] returns is the links it has read, from
    the first page on and in reading order, each kept at its first
    occurrence only: it has no repetition, and a link met again is passed
    over with the collected list, and so the count, unchanged. *)
Theorem get_book_links_first_occurrences (fuel : nat) (drv : listing_browser)
    (max_links : option Z) (links : list string) :
  get_book_links fuel drv max_links = Some (Ok links) ->
  NoDup links /\
  (exists read unread,
      listing_hrefs drv 0 fuel = read ++ unread /\ links = first_seen read) /\
  (forall h rest book_links,
      In h book_links ->
      scan_elements max_links (Ok (Some h) :: rest) book_links =
        scan_elements max_links rest book_links).
Proof.
  intros H.
  assert (Hread : exists read unread,
             listing_hrefs drv 0 fuel = read ++ unread /\ links = first_seen read).
  { unfold get_book_links in H.
    destruct (pages_loop fuel drv max_links 0 []) as [[s bl]|] eqn:L;
      [|discriminate].
    assert (bl = links) as -> by (destruct s; congruence).
    exact (pages_loop_first_seen drv max_links fuel 0 [] [] s links eq_refl L). }
  split; [|split].
  - destruct Hread as (read & _ & _ & ->). apply first_seen_NoDup.
  - exact Hread.
  - intros h rest bl. apply duplicate_skipped.
Qed.

Lemma get_book_links_first_occurrences_witness :
  NoDup ["A"; "B"; "C"; "D"] /\
  (exists read unread,
      listing_hrefs two_pages 0 5 = read ++ unread /\
      ["A"; "B"; "C"; "D"] = first_seen read) /\
  (forall h rest book_links,
      In h book_links ->
      scan_elements None (Ok (Some h) :: rest) book_links =
        scan_elements None rest book_links).
Proof.
  apply (get_book_links_first_occurrences 5 two_pages None). reflexivity.
Defined.

(** The two scenarios of the listing with pages [A B C] and [C D]. *)
Example two_pages_all : get_book_links 5 two_pages None = Some (Ok ["A"; "B"; "C"; "D"]).
Proof. reflexivity. Qed.

Example two_pages_max_2 :
  get_book_links 5 two_pages (Some 2%Z) = Some (Ok ["A"; "B"]) /\
  pages_loop 5 two_pages (Some 2%Z) 0 [] = pages_loop 1 two_pages (Some 2%Z) 0 [].
Proof. split; reflexivity. Qed.

(** ** [get_book_links]: how it ends *)


Lemma pages_loop_arrives (drv : listing_browser) (max_links : option Z)
    (page : nat) (book_links : list string) :
  arrives drv max_links page book_links ->
  forall fuel,
    pages_loop (page + fuel) drv max_links 0 [] =
      pages_loop fuel drv max_links page book_links.
Proof.
  induction 1 as [|page bl bl' _ IH V]; intros fuel; [reflexivity|].
  replace (S page + fuel) with (page + S fuel) by lia.
  rewrite IH. simpl. now rewrite V.
Qed.

(** More fuel does not change a result already reached. *)
Lemma pages_loop_more_fuel (drv : listing_browser) (max_links : option Z)
    (fuel extra : nat) :
  forall (page : nat) (book_links : list string) (r : signal * list string),
    pages_loop fuel drv max_links page book_links = Some r ->
    pages_loop (fuel + extra) drv max_links page book_links = Some r.
Proof.
  induction fuel as [|fuel IH]; intros page bl r H; [discriminate|].
  simpl in *. destruct (visit_page max_links (drv page) bl) as [[] bl1];
    auto.
Qed.

(** The loop returns once a page it comes to ends it, if the fuel
    reaches that page. *)
Lemma get_book_links_returns (drv : listing_browser) (max_links : option Z)
    (page : nat) (book_links : list string) (sig : signal)
    (book_links' : list string) (fuel : nat) :
  arrives drv max_links page book_links ->
  visit_page max_links (drv page) book_links = (sig, book_links') ->
  sig <> Next ->
  page < fuel ->
  get_book_links fuel drv max_links = Some (Ok book_links').
Proof.
  intros A V N F. unfold get_book_links.
  replace fuel with (page + S (fuel - S page)) by lia.
  rewrite (pages_loop_arrives _ _ _ _ A). simpl. rewrite V.
  destruct sig; [now contradiction N | reflexivity ..].
Qed.

Lemma visit_page_timeout (max_links : option Z) (p : listing_page)
    (book_links : list string) :
  items_wait p = Raised ->
  visit_page max_links p book_links = (Raise, book_links).
Proof. intros H. unfold visit_page. now rewrite H. Qed.

(** C6: when the loop comes to a page whose wait for the items times out,
    [get_book_links] returns, as its ordinary result, the links collected
    on the pages before; the exception stays inside. *)
Theorem get_book_links_wait_timeout (drv : listing_browser)
    (max_links : option Z) (page : nat) (book_links : list string) (fuel : nat) :
  arrives drv max_links page book_links ->
  items_wait (drv page) = Raised ->
  page < fuel ->
  get_book_links fuel drv max_links = Some (Ok book_links).
Proof.
  intros A W F.
  apply (get_book_links_returns drv max_links page book_links Raise);
    [assumption | now apply visit_page_timeout | discriminate | assumption].
Qed.

Lemma get_book_links_wait_timeout_witness :
  get_book_links 2 second_page_missing None = Some (Ok ["A"; "B"]).
Proof.
  apply (get_book_links_wait_timeout second_page_missing None 1 ["A"; "B"] 2).
  - apply (arrives_next _ _ 0 []); [constructor | reflexivity].
  - reflexivity.
  - lia.
Defined.

(** ** The bound [max_links] *)

Lemma scan_elements_bound (n : Z) (els : list (outcome (option string))) :
  forall (book_links : list string) (sig : signal) (book_links' : list string),
    (Z.of_nat (length book_links) < n)%Z ->
    scan_elements (Some n) els book_links = (sig, book_links') ->
    (Z.of_nat (length book_links') <= n)%Z /\
    (sig = Next -> (Z.of_nat (length book_links') < n)%Z).
Proof.
  induction els as [|[href|] els IH]; intros bl sig bl' Hlt Hscan; simpl in Hscan.
  - injection Hscan as <- <-. lia.
  - destruct (fresh_href href bl) as [h|]; [|exact (IH _ _ _ Hlt Hscan)].
    assert (Hlen : length (bl ++ [h]) = S (length bl))
      by (rewrite length_app; simpl; lia).
    unfold limit_reached in Hscan.
    destruct (Z.of_nat (length (bl ++ [h])) >=? n)%Z eqn:G.
    + injection Hscan as <- <-. split; [lia | discriminate].
    + apply (IH (bl ++ [h])); [lia | assumption].
  - injection Hscan as <- <-. split; [lia | discriminate].
Qed.

Lemma visit_page_bound (n : Z) (p : listing_page) (book_links : list string)
    (sig : signal) (book_links' : list string) :
  (Z.of_nat (length book_links) < n)%Z ->
  visit_page (Some n) p book_links = (sig, book_links') ->
  (Z.of_nat (length book_links') <= n)%Z /\
  (sig = Next -> (Z.of_nat (length book_links') < n)%Z).
Proof.
  intros Hlt. unfold visit_page.
  destruct (items_wait p); [|intros [= <- <-]; split; [lia | discriminate]].
  destruct (link_elements p) as [els|];
    [|intros [= <- <-]; split; [lia | discriminate]].
  destruct (scan_elements (Some n) els book_links) as [s bl] eqn:S.
  destruct (scan_elements_bound _ _ _ _ _ Hlt S) as [Hle Hnext].
  destruct s; intros [= <- <-]; split; auto; discriminate.
Qed.

Lemma pages_loop_bound (n : Z) (drv : listing_browser) (fuel : nat) :
  forall (page : nat) (book_links : list string) (sig : signal)
         (book_links' : list string),
    (Z.of_nat (length book_links) < n)%Z ->
    pages_loop fuel drv (Some n) page book_links = Some (sig, book_links') ->
    (Z.of_nat (length book_links') <= n)%Z.
Proof.
  induction fuel as [|fuel IH]; intros page bl sig bl' Hlt Hloop;
    [discriminate|].
  simpl in Hloop.
  destruct (visit_page (Some n) (drv page) bl) as [s bl1] eqn:V.
  destruct (visit_page_bound _ _ _ _ _ Hlt V) as [Hle Hnext].
  destruct s; try (injection Hloop as _ <-; exact Hle).
  exact (IH _ _ _ _ (Hnext eq_refl) Hloop).
Qed.

(** From [max_links = 1] on, the bound holds for [get_book_links]. *)
Lemma get_book_links_bound (fuel : nat) (drv : listing_browser) (n : Z)
    (links : list string) :
  (1 <= n)%Z ->
  get_book_links fuel drv (Some n) = Some (Ok links) ->
  (Z.of_nat (length links) <= n)%Z.
Proof.
  intros Hn. unfold get_book_links.
  destruct (pages_loop fuel drv (Some n) 0 []) as [[s bl]|] eqn:L;
    [|discriminate].
  intros H. assert (bl = links) as -> by (destruct s; congruence).
  apply (pages_loop_bound n drv fuel 0 [] s); [simpl; lia | assumption].
Qed.

Lemma details_loop_history (drv : detail_browser) (links : list string) :
  forall (i : nat) (st : run),
    history (details_loop drv i links st) = history st ++ links.
Proof.
  induction links as [|link links IH]; intros i st; simpl.
  - now rewrite app_nil_r.
  - rewrite IH. simpl. now rewrite <- app_assoc.
Qed.

(** [scrape_book_details] sends the browser to the links it keeps after
    the cut, in order, and to no other. *)
Lemma scrape_run_history (drv : detail_browser) (links : list string)
    (max_links : option Z) :
  history (scrape_run drv links max_links) = limit_links max_links links.
Proof. unfold scrape_run. now rewrite details_loop_history. Qed.

(** With a bound [n >= 0], the links visited are the first [n] given. *)
Lemma scrape_run_bound (drv : detail_browser) (links : list string) (n : Z) :
  (0 <= n)%Z ->
  history (scrape_run drv links (Some n)) = firstn (Z.to_nat n) links /\
  (Z.of_nat (length (history (scrape_run drv links (Some n)))) <= n)%Z.
Proof.
  intros Hn. rewrite scrape_run_history. unfold limit_links, slice_to.
  destruct (0 <=? n)%Z eqn:E; [|lia]. split; [reflexivity|].
  pose proof (firstn_le_length (Z.to_nat n) links). lia.
Qed.

(** C1: with [max_links = 0] and a page that shows one link,
    [get_book_links] returns that link: one link, where the bound asks
    for none.  The test of the bound comes only after a link is appended. *)
Theorem get_book_links_max_zero :
  get_book_links 1 one_link (Some 0%Z) = Some (Ok ["A"]) /\
  ~ (Z.of_nat (length ["A"]) <= 0)%Z.
Proof.
  split; [reflexivity|]. simpl. lia.
Qed.

(** ** The price dictionary *)

Lemma keys_set (k : string) (v : pyval) (d : Dict.t) :
  Dict.keys (Dict.set k v d) =
    if py_in k (Dict.keys d) then Dict.keys d else Dict.keys d ++ [k].
Proof.
  unfold Dict.keys.
  induction d as [|[k0 v0] d IH]; simpl; [reflexivity|].
  destruct (String.eqb k k0); simpl; [reflexivity|].
  rewrite IH. now destruct (py_in k (map fst d)).
Qed.

Lemma get_none_key (k : string) (d : Dict.t) :
  ~ In k (Dict.keys d) -> Dict.get k d = None.
Proof.
  intros H. destruct (Dict.get k d) eqn:E; [|reflexivity].
  exfalso. exact (H (get_some_key _ _ _ E)).
Qed.

Lemma get_store_in (fmt : string) (fmts : list string) (text : string) :
  forall d : Dict.t,
    Dict.get fmt (store_in fmts text d) =
      if py_in fmt fmts && matches fmt text
      then Some (PyStr (clean_price fmt text))
      else Dict.get fmt d.
Proof.
  unfold store_in, py_in.
  induction fmts as [|f fmts IH]; intros d; simpl; [reflexivity|].
  rewrite IH.
  destruct (existsb (String.eqb fmt) fmts); simpl.
  - rewrite orb_true_r. simpl. destruct (matches fmt text) eqn:Mf; [reflexivity|].
    destruct (matches f text) eqn:M; [|reflexivity].
    rewrite get_set. destruct (String.eqb fmt f) eqn:F; [|reflexivity].
    apply String.eqb_eq in F. congruence.
  - rewrite orb_false_r. destruct (String.eqb fmt f) eqn:F; simpl.
    + apply String.eqb_eq in F; subst f.
      destruct (matches fmt text); [|reflexivity].
      now rewrite get_set, String.eqb_refl.
    + destruct (matches f text); [|reflexivity].
      now rewrite get_set, F.
Qed.

Lemma keys_store_in (fmts : list string) (text : string) :
  forall d : Dict.t,
    (forall f, In f fmts -> In f (Dict.keys d)) ->
    Dict.keys (store_in fmts text d) = Dict.keys d.
Proof.
  unfold store_in.
  induction fmts as [|f fmts IH]; intros d H; simpl; [reflexivity|].
  assert (Hf : In f (Dict.keys d)) by (apply H; now left).
  destruct (matches f text).
  - rewrite IH; [now apply keys_set_present|].
    intros g Hg. rewrite keys_set_present by assumption. apply H. now right.
  - apply IH. intros g Hg. apply H. now right.
Qed.

Lemma keys_read_buttons (btns : list (outcome string)) :
  forall d : Dict.t,
    Dict.keys d = formats ->
    Dict.keys (snd (read_buttons btns d)) = formats.
Proof.
  induction btns as [|[raw|] btns IH]; intros d H; simpl; try assumption.
  apply IH. unfold store_formats. rewrite keys_store_in; [assumption|].
  intros f Hf. now rewrite H.
Qed.

Lemma keys_prices_of (p : detail_page) : Dict.keys (prices_of p) = formats.
Proof.
  unfold prices_of. destruct (price_buttons p); [|reflexivity].
  now apply keys_read_buttons.
Qed.

(** A label no button text matches keeps the value it had. *)
Lemma get_read_buttons_unmatched (fmt : string) (btns : list (outcome string)) :
  forall d : Dict.t,
    (forall raw, In (Ok raw) btns -> matches fmt (PyStr.strip raw) = false) ->
    Dict.get fmt (snd (read_buttons btns d)) = Dict.get fmt d.
Proof.
  induction btns as [|[raw|] btns IH]; intros d H; simpl; try reflexivity.
  rewrite IH by (intros r Hr; apply H; now right).
  unfold store_formats. rewrite get_store_in, (H raw) by now left.
  now rewrite andb_false_r.
Qed.

(** The value of a label comes from the last button that matches it. *)
Lemma get_read_buttons_last (fmt : string) (pre : list string) (b : string)
    (post : list (outcome string)) :
  forall d : Dict.t,
    In fmt formats ->
    matches fmt (PyStr.strip b) = true ->
    (forall raw, In (Ok raw) post -> matches fmt (PyStr.strip raw) = false) ->
    Dict.get fmt (snd (read_buttons (map Ok pre ++ Ok b :: post) d)) =
      Some (PyStr (clean_price fmt (PyStr.strip b))).
Proof.
  induction pre as [|a pre IH]; intros d F M U; simpl.
  - rewrite get_read_buttons_unmatched by assumption.
    unfold store_formats. rewrite get_store_in, M.
    apply py_in_In in F. now rewrite F.
  - now apply IH.
Qed.

(** A value other than the one the label had comes from a button that
    matches the label. *)
Lemma get_read_buttons_changed (fmt : string) (btns : list (outcome string)) :
  forall d : Dict.t,
    Dict.get fmt (snd (read_buttons btns d)) <> Dict.get fmt d ->
    exists raw, In (Ok raw) btns /\ matches fmt (PyStr.strip raw) = true.
Proof.
  induction btns as [|[raw|] btns IH]; intros d H; simpl in H;
    try (exfalso; now apply H).
  destruct (matches fmt (PyStr.strip raw)) eqn:M.
  - exists raw. split; [now left | assumption].
  - destruct (IH (store_formats (PyStr.strip raw) d)) as (r & Hr & Mr).
    + intros E. apply H. rewrite E. unfold store_formats.
      rewrite get_store_in, M. now rewrite andb_false_r.
    + exists r. split; [now right | assumption].
Qed.

Lemma get_initial_prices (fmt : string) :
  In fmt formats -> Dict.get fmt initial_prices = Some (PyStr NA).
Proof.
  intros H. repeat (destruct H as [<-|H]; [reflexivity|]). destruct H.
Qed.

(** ** The row *)

Lemma get_update (k : string) (e : Dict.t) :
  forall d : Dict.t,
    NoDup (Dict.keys e) ->
    Dict.get k (Dict.update d e) =
      match Dict.get k e with
      | Some v => Some v
      | None => Dict.get k d
      end.
Proof.
  unfold Dict.update.
  induction e as [|[k0 v0] e IH]; intros d N; simpl; [reflexivity|].
  inversion N as [|? ? Hnot N']; subst.
  rewrite (IH _ N'), get_set.
  destruct (String.eqb k k0) eqn:E; [|reflexivity].
  apply String.eqb_eq in E; subst k0.
  now rewrite (get_none_key _ _ Hnot).
Qed.

Lemma keys_update (e : Dict.t) :
  forall d : Dict.t,
    Dict.keys (Dict.update d e) =
      fold_left (fun ks k => if py_in k ks then ks else ks ++ [k])
                (Dict.keys e) (Dict.keys d).
Proof.
  unfold Dict.update.
  induction e as [|[k0 v0] e IH]; intros d; simpl; [reflexivity|].
  now rewrite IH, keys_set.
Qed.

Lemma formats_NoDup : NoDup formats.
Proof.
  unfold formats.
  repeat (constructor; [simpl; intros H; repeat (destruct H as [H|H]; [discriminate|]); exact H|]).
  constructor.
Qed.

Lemma keys_make_row (title : string) (rating : pyval) (link : string)
    (prices_dict : Dict.t) :
  Dict.keys prices_dict = formats ->
  Dict.keys (make_row title rating link prices_dict) = header.
Proof.
  intros H. unfold make_row. rewrite keys_update, H. reflexivity.
Qed.

Lemma get_make_row_format (title : string) (rating : pyval) (link : string)
    (prices_dict : Dict.t) (fmt : string) :
  Dict.keys prices_dict = formats ->
  In fmt formats ->
  Dict.get fmt (make_row title rating link prices_dict) = Dict.get fmt prices_dict.
Proof.
  intros H F. unfold make_row.
  rewrite get_update by (rewrite H; apply formats_NoDup).
  destruct (Dict.get fmt prices_dict) eqn:E; [reflexivity|].
  exfalso. rewrite <- H in F. unfold Dict.keys in F.
  apply in_map_iff in F as [[k v] [<- Hin]].
  clear H. induction prices_dict as [|[k0 v0] d IH]; [destruct Hin|].
  simpl in E. destruct (String.eqb k k0) eqn:K; [discriminate|].
  destruct Hin as [[= -> ->]|Hin]; [now rewrite String.eqb_refl in K|].
  now apply IH.
Qed.

Lemma get_make_row_rating (title : string) (rating : pyval) (link : string)
    (prices_dict : Dict.t) :
  Dict.keys prices_dict = formats ->
  Dict.get "Rating" (make_row title rating link prices_dict) = Some rating.
Proof.
  intros H. unfold make_row.
  rewrite get_update by (rewrite H; apply formats_NoDup).
  rewrite get_none_key; [reflexivity|].
  rewrite H. simpl. intros F.
  repeat (destruct F as [F|F]; [discriminate|]). exact F.
Qed.

(** What it takes for [scrape_link] to give a row, and the row it gives. *)
Lemma scrape_link_ok (p : detail_page) (link : string) (row : Dict.t) :
  scrape_link p link = Ok row ->
  exists t,
    navigate p = Ok tt /\ title_wait p = Ok tt /\ title_text p = Ok t /\
    row = make_row (PyStr.strip t) (rating_of p) link (prices_of p).
Proof.
  unfold scrape_link, bind.
  destruct (navigate p) as [[]|]; [|discriminate].
  destruct (title_wait p) as [[]|]; [|discriminate].
  destruct (title_text p) as [t|]; [|discriminate].
  intros [= <-]. now exists t.
Qed.

Lemma scrape_link_raised (p : detail_page) (link : string) :
  scrape_link p link = Raised <->
  navigate p = Raised \/ title_wait p = Raised \/ title_text p = Raised.
Proof.
  unfold scrape_link, bind.
  destruct (navigate p) as [[]|]; [|tauto].
  destruct (title_wait p) as [[]|]; [|tauto].
  destruct (title_text p) as [t|]; [|tauto].
  split; [discriminate|]. intros [H|[H|H]]; discriminate.
Qed.

(** ** [scrape_book_details]: the rows *)

Lemma details_loop_results (drv : detail_browser) (links : list string) :
  forall (i : nat) (st : run),
    results (details_loop drv i links st) =
      results st ++ results (details_loop drv i links fresh_run).
Proof.
  induction links as [|link links IH]; intros i st; simpl.
  - now rewrite app_nil_r.
  - rewrite IH, (IH _ (visit_link drv i link fresh_run)). simpl.
    destruct (scrape_link (drv i link) link); simpl;
      [now rewrite <- app_assoc | reflexivity].
Qed.

Lemma details_loop_app (drv : detail_browser) (a b : list string) :
  forall (i : nat) (st : run),
    details_loop drv i (a ++ b) st =
      details_loop drv (i + length a) b (details_loop drv i a st).
Proof.
  induction a as [|x a IH]; intros i st; simpl.
  - now rewrite Nat.add_0_r.
  - rewrite IH. now rewrite Nat.add_succ_r.
Qed.

Lemma In_firstn_In {A : Type} (k : nat) (l : list A) (x : A) :
  In x (firstn k l) -> In x l.
Proof.
  intros H. rewrite <- (firstn_skipn k l). apply in_or_app. now left.
Qed.

Lemma slice_to_In (n : Z) (links : list string) (x : string) :
  In x (slice_to n links) -> In x links.
Proof.
  unfold slice_to. destruct (0 <=? n)%Z; apply In_firstn_In.
Qed.

(** Every row of the result is the row [scrape_link] gives for one of the
    links and the page the browser showed for it. *)
Lemma rows_from_scrape_link (drv : detail_browser) (links : list string)
    (max_links : option Z) (row : Dict.t) :
  In row (scrape_book_details drv links max_links) ->
  exists i link, In link links /\ scrape_link (drv i link) link = Ok row.
Proof.
  unfold scrape_book_details, scrape_run.
  assert (G : forall ls i,
             In row (results (details_loop drv i ls fresh_run)) ->
             exists i link, In link ls /\ scrape_link (drv i link) link = Ok row).
  { induction ls as [|l ls IH]; intros i H; [destruct H|].
    simpl in H. rewrite details_loop_results in H.
    apply in_app_or in H as [H|H].
    - simpl in H. destruct (scrape_link (drv i l) l) as [r|] eqn:E; [|destruct H].
      destruct H as [<-|[]]. exists i, l. split; [now left | assumption].
    - destruct (IH _ H) as (j & k & Hk & E). exists j, k. split; [now right | assumption]. }
  intros H. destruct (G _ _ H) as (i & link & Hin & E).
  exists i, link. split; [|assumption].
  destruct max_links as [n|]; [now apply slice_to_In in Hin | assumption].
Qed.

(** C2: for a page whose price buttons read "Very Good $5" and "Good $3",
    in this order, the row has "$5" under "Very Good" and "$3" under
    "Good"; what "Good" first received from the button "Very Good $5" is
    not what it ends with. *)
Theorem very_good_then_good (p : detail_page) (link : string) (row : Dict.t) :
  price_buttons p = Ok [Ok "Very Good $5"; Ok "Good $3"] ->
  scrape_link p link = Ok row ->
  Dict.get "Very Good" row = Some (PyStr "$5") /\
  Dict.get "Good" row = Some (PyStr "$3") /\
  Dict.get "Good" row <>
    Some (PyStr (clean_price "Good" (PyStr.strip "Very Good $5"))).
Proof.
  intros B S. apply scrape_link_ok in S as (t & _ & _ & _ & ->).
  rewrite !get_make_row_format by (try apply keys_prices_of; simpl; tauto).
  unfold prices_of. rewrite B.
  split; [reflexivity|]. split; [reflexivity|]. discriminate.
Qed.

Lemma very_good_then_good_witness :
  let row := make_row "Dune" (PyStr "4.5") "u" (prices_of two_buttons) in
  Dict.get "Very Good" row = Some (PyStr "$5") /\
  Dict.get "Good" row = Some (PyStr "$3") /\
  Dict.get "Good" row <>
    Some (PyStr (clean_price "Good" (PyStr.strip "Very Good $5"))).
Proof.
  apply (very_good_then_good two_buttons "u"); reflexivity.
Defined.

(** In the other order the button "Very Good $5" comes last among those
    that contain "Good", and "Good" keeps what that button left. *)
Example good_then_very_good :
  Dict.get "Good"
    (prices_of (book_page "Dune" Raised ["Good $3"; "Very Good $5"]))
  = Some (PyStr "Very  $5").
Proof. reflexivity. Qed.

(** C4: every row of the result has the keys Title, Rating, URL and the
    eight format labels, these and no other, whatever the buttons of its
    page.  With no button every format holds "N/A"; a format that holds
    something else was matched by the text of one of the buttons. *)
Theorem row_schema (drv : detail_browser) (links : list string)
    (max_links : option Z) (row : Dict.t) :
  In row (scrape_book_details drv links max_links) ->
  Dict.keys row =
    ["Title"; "Rating"; "URL"; "Hardcover"; "Paperback"; "Library Binding";
     "Like New"; "Very Good"; "Good"; "Acceptable"; "New"] /\
  (exists i link, In link links /\ scrape_link (drv i link) link = Ok row) /\
  forall i link,
    scrape_link (drv i link) link = Ok row ->
    (price_buttons (drv i link) = Ok [] ->
     forall fmt, In fmt formats -> Dict.get fmt row = Some (PyStr "N/A")) /\
    (forall fmt, In fmt formats ->
       Dict.get fmt row <> Some (PyStr "N/A") ->
       exists btns raw,
         price_buttons (drv i link) = Ok btns /\ In (Ok raw) btns /\
         matches fmt (PyStr.strip raw) = true).
Proof.
  intros H. pose proof (rows_from_scrape_link _ _ _ _ H) as O.
  split; [|split; [exact O|]].
  - destruct O as (i & link & _ & S).
    apply scrape_link_ok in S as (t & _ & _ & _ & ->).
    apply (keys_make_row _ _ _ _ (keys_prices_of _)).
  - intros i link S. apply scrape_link_ok in S as (t & _ & _ & _ & ->).
    split.
    + intros B fmt F. rewrite get_make_row_format by (try apply keys_prices_of; assumption).
      unfold prices_of. rewrite B. simpl. now apply get_initial_prices.
    + intros fmt F D.
      rewrite get_make_row_format in D by (try apply keys_prices_of; assumption).
      unfold prices_of in D.
      destruct (price_buttons (drv i link)) as [btns|] eqn:B.
      * destruct (get_read_buttons_changed fmt btns initial_prices) as (raw & Hin & M).
        { now rewrite (get_initial_prices _ F). }
        now exists btns, raw.
      * exfalso. apply D. now apply get_initial_prices.
Qed.

Lemma row_schema_witness :
  let row := make_row "Dune" (PyStr "4.5") "u" (prices_of two_buttons) in
  Dict.keys row =
    ["Title"; "Rating"; "URL"; "Hardcover"; "Paperback"; "Library Binding";
     "Like New"; "Very Good"; "Good"; "Acceptable"; "New"] /\
  (exists i link, In link ["u"] /\ scrape_link (shop i link) link = Ok row) /\
  forall i link,
    scrape_link (shop i link) link = Ok row ->
    (price_buttons (shop i link) = Ok [] ->
     forall fmt, In fmt formats -> Dict.get fmt row = Some (PyStr "N/A")) /\
    (forall fmt, In fmt formats ->
       Dict.get fmt row <> Some (PyStr "N/A") ->
       exists btns raw,
         price_buttons (shop i link) = Ok btns /\ In (Ok raw) btns /\
         matches fmt (PyStr.strip raw) = true).
Proof.
  apply (row_schema shop ["u"] None). simpl. left. reflexivity.
Defined.

(** A page with no button, and one whose buttons cannot be listed. *)
Example no_buttons_all_na :
  map snd (prices_of (book_page "Dune" Raised [])) =
    map (fun _ => PyStr "N/A") formats /\
  map snd (prices_of no_title_page) = map (fun _ => PyStr "N/A") formats.
Proof. split; reflexivity. Qed.

(** C10: when several buttons of a page match a format, the row holds for
    it what the last of them gives: its text without the label, stripped,
    or "N/A" when nothing is left.  Earlier values for the label, the
    default among them, are overwritten. *)
Theorem last_matching_button_wins (p : detail_page) (link : string)
    (row : Dict.t) (fmt : string) (pre : list string) (b : string)
    (post : list (outcome string)) :
  scrape_link p link = Ok row ->
  price_buttons p = Ok (map Ok pre ++ Ok b :: post) ->
  In fmt formats ->
  matches fmt (PyStr.strip b) = true ->
  (forall raw, In (Ok raw) post -> matches fmt (PyStr.strip raw) = false) ->
  Dict.get fmt row = Some (PyStr (clean_price fmt (PyStr.strip b))).
Proof.
  intros S B F M U. apply scrape_link_ok in S as (t & _ & _ & _ & ->).
  rewrite get_make_row_format by (try apply keys_prices_of; assumption).
  unfold prices_of. rewrite B. now apply get_read_buttons_last.
Qed.

Lemma last_matching_button_wins_witness :
  Dict.get "Good"
    (make_row "Dune" (PyStr "4.5") "u"
       (prices_of (book_page "Dune" (Ok (Some "4.5"))
                     ["Good $3"; "Good $4"; "New $9"])))
  = Some (PyStr (clean_price "Good" (PyStr.strip "Good $4"))).
Proof.
  apply (last_matching_button_wins
           (book_page "Dune" (Ok (Some "4.5")) ["Good $3"; "Good $4"; "New $9"])
           "u" _ "Good" ["Good $3"] "Good $4" [Ok "New $9"]).
  - reflexivity.
  - reflexivity.
  - simpl. tauto.
  - reflexivity.
  - intros raw [[= <-]|[]]. reflexivity.
Defined.

Example last_matching_button_value :
  clean_price "Good" (PyStr.strip "Good $4") = "$4" /\
  clean_price "Good" (PyStr.strip " Good ") = "N/A".
Proof. split; reflexivity. Qed.

(** ** The rating *)

Lemma get_rating (p : detail_page) (link : string) (row : Dict.t) :
  scrape_link p link = Ok row -> Dict.get "Rating" row = Some (rating_of p).
Proof.
  intros S. apply scrape_link_ok in S as (t & _ & _ & _ & ->).
  apply get_make_row_rating, keys_prices_of.
Qed.

(** A page whose rating element carries the text "N/A" gives a row with
    the rating "N/A", though the lookup succeeded and found a value. *)
Lemma rating_na_read_from_page :
  exists row,
    scrape_link rated_na "u" = Ok row /\
    Dict.get "Rating" row = Some (PyStr "N/A") /\
    ~ rating_missing rated_na.
Proof.
  eexists. split; [reflexivity|]. split; [reflexivity|].
  intros [H|H]; discriminate.
Qed.

(** C5, amended: for a page whose rating element, when it is found, has
    its [content] attribute, the rating of the row is "N/A" exactly when
    the lookup failed or the attribute itself reads "N/A". *)
Theorem rating_na_iff (p : detail_page) (link : string) (row : Dict.t) :
  scrape_link p link = Ok row ->
  rating_content p <> Ok None ->
  (Dict.get "Rating" row = Some (PyStr "N/A") <->
   rating_content p = Raised \/ rating_content p = Ok (Some "N/A")).
Proof.
  intros S A. rewrite (get_rating _ _ _ S). unfold rating_of.
  destruct (rating_content p) as [[v|]|]; simpl.
  - split.
    + intros [= ->]. now right.
    + intros [H|H]; [discriminate | now injection H as ->].
  - now contradiction A.
  - split; [now left | reflexivity].
Qed.

Lemma rating_na_iff_witness :
  Dict.get "Rating" (make_row "Dune" (PyStr "4.5") "u" (prices_of two_buttons))
    = Some (PyStr "N/A") <->
  rating_content two_buttons = Raised \/
  rating_content two_buttons = Ok (Some "N/A").
Proof.
  apply (rating_na_iff two_buttons "u"); [reflexivity | discriminate].
Defined.

(** When the lookup raises, the rating is "N/A". *)
Lemma rating_lookup_failed (p : detail_page) (link : string) (row : Dict.t) :
  scrape_link p link = Ok row ->
  rating_content p = Raised ->
  Dict.get "Rating" row = Some (PyStr "N/A").
Proof.
  intros S R. rewrite (get_rating _ _ _ S). unfold rating_of. now rewrite R.
Qed.

(** ** Links that fail *)

(** C7: when the navigation, the wait for the title or the reading of the
    title raises for a link, the result has no row for this visit: it is
    the rows of the links before, as a run over those alone gives them,
    followed by the rows of the links after, and the browser is still sent
    to every link of the list. *)
Theorem failed_link_skipped (drv : detail_browser) (links : list string)
    (max_links : option Z) (pre : list string) (link : string)
    (post : list string) :
  limit_links max_links links = pre ++ link :: post ->
  navigate (drv (S (length pre)) link) = Raised \/
  title_wait (drv (S (length pre)) link) = Raised \/
  title_text (drv (S (length pre)) link) = Raised ->
  scrape_book_details drv links max_links =
    scrape_book_details drv pre None ++
    results (details_loop drv (S (S (length pre))) post fresh_run) /\
  history (scrape_run drv links max_links) = pre ++ link :: post.
Proof.
  intros L F. apply (scrape_link_raised _ link) in F.
  split; [|now rewrite scrape_run_history].
  unfold scrape_book_details, scrape_run. rewrite L. simpl limit_links.
  rewrite details_loop_app. simpl.
  rewrite details_loop_results. f_equal.
  unfold visit_link. now rewrite F.
Qed.

Lemma failed_link_skipped_witness :
  scrape_book_details shop ["a"; "bad"; "c"] None =
    scrape_book_details shop ["a"] None ++
    results (details_loop shop 3 ["c"] fresh_run) /\
  history (scrape_run shop ["a"; "bad"; "c"] None) = ["a"; "bad"; "c"].
Proof.
  apply (failed_link_skipped shop ["a"; "bad"; "c"] None ["a"] "bad" ["c"]).
  - reflexivity.
  - right. left. reflexivity.
Defined.

Example failed_link_rows :
  map (Dict.get "URL") (scrape_book_details shop ["a"; "bad"; "c"] None) =
    [Some (PyStr "a"); Some (PyStr "c")].
Proof. reflexivity. Qed.

(** A link that does not fail adds its row, and nothing else changes. *)
Lemma good_link_kept (drv : detail_browser) (pre : list string) (link : string)
    (post : list string) (row : Dict.t) :
  scrape_link (drv (S (length pre)) link) link = Ok row ->
  scrape_book_details drv (pre ++ link :: post) None =
    scrape_book_details drv pre None ++ [row] ++
    results (details_loop drv (S (S (length pre))) post fresh_run).
Proof.
  intros S. unfold scrape_book_details, scrape_run. simpl limit_links.
  rewrite details_loop_app. simpl.
  rewrite details_loop_results. unfold visit_link. rewrite S. simpl.
  now rewrite <- app_assoc.
Qed.

(** ** [save_to_csv] *)

Lemma dict_to_list_own_keys (row : Dict.t) :
  exists fields, dict_to_list (Dict.keys row) row = Ok fields.
Proof.
  unfold dict_to_list.
  replace (forallb (fun k => py_in k (Dict.keys row)) (Dict.keys row)) with true.
  - eexists. reflexivity.
  - symmetry. apply forallb_forall. intros k. apply py_in_In.
Qed.

Lemma writerows_same_keys (fieldnames : list string) (data : list Dict.t) :
  forall file : csv_file,
    (forall row, In row data -> Dict.keys row = fieldnames) ->
    exists rows,
      writerows fieldnames data file = (Ok tt, file ++ rows) /\
      length rows = length data.
Proof.
  induction data as [|row data IH]; intros file H; simpl.
  - exists []. now rewrite app_nil_r.
  - destruct (dict_to_list_own_keys row) as [fields E].
    rewrite (H row) in E by now left. rewrite E.
    destruct (IH (file ++ [fields])) as (rows & W & Len).
    { intros r Hr. apply H. now right. }
    exists (fields :: rows). rewrite W, <- app_assoc. simpl. auto.
Qed.

Lemma rows_keys (drv : detail_browser) (links : list string)
    (max_links : option Z) (row : Dict.t) :
  In row (scrape_book_details drv links max_links) -> Dict.keys row = header.
Proof.
  intros H. destruct (rows_from_scrape_link _ _ _ _ H) as (i & link & _ & S).
  apply scrape_link_ok in S as (t & _ & _ & _ & ->).
  apply (keys_make_row _ _ _ _ (keys_prices_of _)).
Qed.

(** C8: for the rows of [scrape_book_details], [save_to_csv] opens no
    file when there is no row, and is done.  Otherwise the file begins
    with the keys of the first row, which are Title, Rating, URL and the
    eight formats in the order of the catalog, and has a line for each
    row after it. *)
Theorem save_to_csv_header (drv : detail_browser) (links : list string)
    (max_links : option Z) (data : list Dict.t) :
  data = scrape_book_details drv links max_links ->
  (data = [] -> save_to_csv data = (Ok tt, None)) /\
  (forall first rest,
     data = first :: rest ->
     Dict.keys first =
       ["Title"; "Rating"; "URL"; "Hardcover"; "Paperback"; "Library Binding";
        "Like New"; "Very Good"; "Good"; "Acceptable"; "New"] /\
     exists lines,
       save_to_csv data = (Ok tt, Some (Dict.keys first :: lines)) /\
       length lines = length data).
Proof.
  intros D. split; [intros ->; reflexivity|].
  intros first rest E.
  assert (K : forall row, In row data -> Dict.keys row = header)
    by (intros row; rewrite D; apply rows_keys).
  assert (Kf : Dict.keys first = header) by (apply K; rewrite E; now left).
  split; [exact Kf|].
  rewrite E. unfold save_to_csv. rewrite <- E.
  destruct (writerows_same_keys (Dict.keys first) data [Dict.keys first])
    as (lines & W & Len).
  { intros row Hr. rewrite Kf. now apply K. }
  rewrite W. now exists lines.
Qed.

Lemma save_to_csv_header_witness :
  (scrape_book_details shop ["a"; "bad"] None = [] ->
   save_to_csv (scrape_book_details shop ["a"; "bad"] None) = (Ok tt, None)) /\
  (forall first rest,
     scrape_book_details shop ["a"; "bad"] None = first :: rest ->
     Dict.keys first =
       ["Title"; "Rating"; "URL"; "Hardcover"; "Paperback"; "Library Binding";
        "Like New"; "Very Good"; "Good"; "Acceptable"; "New"] /\
     exists lines,
       save_to_csv (scrape_book_details shop ["a"; "bad"] None) =
         (Ok tt, Some (Dict.keys first :: lines)) /\
       length lines = length (scrape_book_details shop ["a"; "bad"] None)).
Proof.
  apply (save_to_csv_header shop ["a"; "bad"] None). reflexivity.
Defined.

Example save_to_csv_one_row :
  save_to_csv (scrape_book_details shop ["a"; "bad"] None) =
    (Ok tt,
     Some [["Title"; "Rating"; "URL"; "Hardcover"; "Paperback";
            "Library Binding"; "Like New"; "Very Good"; "Good"; "Acceptable";
            "New"];
           ["Dune"; "4.5"; "a"; "N/A"; "N/A"; "N/A"; "N/A"; "$5"; "$3";
            "N/A"; "N/A"]]).
Proof. reflexivity. Qed.

Example save_to_csv_nothing :
  save_to_csv (scrape_book_details shop ["bad"] None) = (Ok tt, None) /\
  save_to_csv (scrape_book_details shop [] None) = (Ok tt, None).
Proof. split; reflexivity. Qed.

(** * Further properties *)

(** ** The collector *)

(** X1: with a bound [max_links >= 1], [get_book_links] returns at most
    [max_links] links. *)
Theorem get_book_links_at_most (fuel : nat) (drv : listing_browser) (n : Z)
    (links : list string) :
  (1 <= n)%Z ->
  get_book_links fuel drv (Some n) = Some (Ok links) ->
  (Z.of_nat (length links) <= n)%Z.
Proof.
  intros Hn. unfold get_book_links.
  destruct (pages_loop fuel drv (Some n) 0 []) as [[s bl]|] eqn:L;
    [|discriminate].
  intros H. assert (bl = links) as -> by (destruct s; congruence).
  apply (pages_loop_bound n drv fuel 0 [] s); [simpl; lia | assumption].
Qed.

Lemma get_book_links_at_most_witness : (Z.of_nat (length ["A"; "B"]) <= 2)%Z.
Proof.
  apply (get_book_links_at_most 5 two_pages 2 ["A"; "B"]); [lia | reflexivity].
Defined.

Lemma element_hrefs_In (els : list (outcome (option string))) (h : string) :
  In h (element_hrefs els) -> h <> "" /\ In (Ok (Some h)) els.
Proof.
  unfold element_hrefs. rewrite in_flat_map.
  intros (el & Hin & Hx). destruct el as [[x|]|]; try destruct Hx.
  destruct x as [|c x]; simpl in Hx; [destruct Hx|].
  destruct Hx as [<-|[]]. split; [discriminate | assumption].
Qed.

(** X2: every link [get_book_links] returns is a non-empty [href] read
    from an element of one of the pages within reach; empty and missing
    attributes never enter the list. *)
Theorem get_book_links_from_pages (fuel : nat) (drv : listing_browser)
    (max_links : option Z) (links : list string) (l : string) :
  get_book_links fuel drv max_links = Some (Ok links) ->
  In l links ->
  l <> "" /\
  exists page els,
    page < fuel /\ link_elements (drv page) = Ok els /\ In (Ok (Some l)) els.
Proof.
  unfold get_book_links.
  destruct (pages_loop fuel drv max_links 0 []) as [[s bl]|] eqn:L;
    [|discriminate].
  intros H Hl. assert (bl = links) as -> by (destruct s; congruence).
  destruct (pages_loop_first_seen drv max_links fuel 0 [] [] s links eq_refl L)
    as (read & unread & E & ->).
  simpl in Hl. rewrite first_seen_In in Hl.
  assert (Hall : In l (listing_hrefs drv 0 fuel))
    by (rewrite E; apply in_or_app; now left).
  unfold listing_hrefs in Hall. apply in_flat_map in Hall as (page & Hp & Hh).
  apply in_seq in Hp. unfold page_hrefs in Hh.
  destruct (link_elements (drv page)) as [els|] eqn:Els; [|destruct Hh].
  apply element_hrefs_In in Hh as [Hne Hin].
  split; [assumption|]. exists page, els. split; [lia | split; assumption].
Qed.

Lemma get_book_links_from_pages_witness :
  "D" <> "" /\
  exists page els,
    page < 5 /\ link_elements (two_pages page) = Ok els /\
    In (Ok (Some "D")) els.
Proof.
  apply (get_book_links_from_pages 5 two_pages None ["A"; "B"; "C"; "D"]).
  - reflexivity.
  - simpl. tauto.
Defined.

Lemma firstn_length_app {A : Type} (a b : list A) :
  firstn (length a) (a ++ b) = a.
Proof.
  induction a as [|x a IH]; simpl; [now destruct b | now rewrite IH].
Qed.

Lemma up_to_room (max_links : option Z) (l : list string) :
  room max_links l -> up_to max_links l = l.
Proof.
  destruct max_links as [n|]; simpl; [|reflexivity].
  intros H. apply firstn_all2. lia.
Qed.

Lemma up_to_first_seen_full (n : Z) (a b : list string) :
  Z.of_nat (length (first_seen a)) = n ->
  up_to (Some n) (first_seen (a ++ b)) = first_seen a.
Proof.
  intros <-. simpl. rewrite Nat2Z.id, first_seen_app.
  apply firstn_length_app.
Qed.

(** The loop over elements that all answer: it either reads them all and
    leaves room under the bound, or stops on the link that fills it. *)
Lemma scan_elements_plain (max_links : option Z) (hrefs : list (option string)) :
  forall (read book_links : list string) (sig : signal) (book_links' : list string),
    book_links = first_seen read ->
    room max_links book_links ->
    scan_elements max_links (map Ok hrefs) book_links = (sig, book_links') ->
    (sig = Next /\
     book_links' = first_seen (read ++ element_hrefs (map Ok hrefs)) /\
     room max_links book_links') \/
    (sig = Return /\
     exists hs1 hs2 n,
       element_hrefs (map Ok hrefs) = hs1 ++ hs2 /\
       book_links' = first_seen (read ++ hs1) /\
       max_links = Some n /\ Z.of_nat (length book_links') = n).
Proof.
  induction hrefs as [|href hrefs IH]; intros read bl sig bl' Hbl Hroom Hscan.
  - left. injection Hscan as <- <-. rewrite app_nil_r. auto.
  - simpl in Hscan.
    unfold element_hrefs; simpl; fold (element_hrefs (map Ok hrefs)).
    destruct (fresh_href href bl) as [h|] eqn:F.
    + apply fresh_href_some in F as (-> & T & I). rewrite T.
      assert (Hnew : bl ++ [h] = first_seen (read ++ [h])).
      { rewrite first_seen_snoc, <- Hbl, I. reflexivity. }
      assert (Hlen : length (bl ++ [h]) = S (length bl))
        by (rewrite length_app; simpl; lia).
      destruct (limit_reached max_links (bl ++ [h])) eqn:Lim.
      * right. injection Hscan as <- <-.
        destruct max_links as [n|]; [|discriminate].
        split; [reflexivity|].
        exists [h], (element_hrefs (map Ok hrefs)), n.
        simpl in Lim, Hroom. repeat split; try assumption. lia.
      * assert (Hroom' : room max_links (bl ++ [h])).
        { destruct max_links as [n|]; simpl in *; [lia | trivial]. }
        destruct (IH _ _ _ _ Hnew Hroom' Hscan)
          as [(-> & -> & Rm)|(-> & hs1 & hs2 & n & E & -> & M & Len)].
        -- left. rewrite <- app_assoc in *. auto.
        -- right. split; [reflexivity|]. exists (h :: hs1), hs2, n.
           rewrite E, <- app_assoc in *. auto.
    + destruct href as [h|]; [destruct (PyStr.truthy h) eqn:T|];
        try exact (IH _ _ _ _ Hbl Hroom Hscan).
      unfold fresh_href in F. rewrite T in F. simpl in F.
      destruct (py_in h bl) eqn:I; [|discriminate].
      assert (Hsame : bl = first_seen (read ++ [h])).
      { rewrite first_seen_snoc, <- Hbl, I. reflexivity. }
      destruct (IH _ _ _ _ Hsame Hroom Hscan)
        as [(-> & -> & Rm)|(-> & hs1 & hs2 & n & E & -> & M & Len)].
      * left. rewrite <- app_assoc in *. auto.
      * right. split; [reflexivity|]. exists (h :: hs1), hs2, n.
        rewrite E, <- app_assoc in *. auto.
Qed.

Lemma pages_loop_plain (drv : listing_browser) (max_links : option Z)
    (extra : nat) :
  forall (last page : nat) (read : list string),
    (forall i, page <= i <= page + last ->
       items_wait (drv i) = Ok tt /\
       exists hrefs, link_elements (drv i) = Ok (map Ok hrefs)) ->
    (forall i, page <= i < page + last -> advance (drv i) = Next) ->
    advance (drv (page + last)) = Break ->
    room max_links (first_seen read) ->
    exists sig,
      pages_loop (S last + extra) drv max_links page (first_seen read) =
        Some (sig, up_to max_links
                     (first_seen (read ++ listing_hrefs drv page (S last)))).
Proof.
  induction last as [|last IH]; intros page read Hp Hnext Hlast Hroom.
  - rewrite Nat.add_0_r in Hlast.
    destruct (Hp page ltac:(lia)) as (W & hrefs & Els).
    simpl. unfold visit_page. rewrite W, Els.
    destruct (scan_elements max_links (map Ok hrefs) (first_seen read))
      as [s bl] eqn:Sc.
    unfold listing_hrefs. simpl. unfold page_hrefs. rewrite Els, app_nil_r.
    destruct (scan_elements_plain _ _ _ _ _ _ eq_refl Hroom Sc)
      as [(-> & -> & Rm)|(-> & hs1 & hs2 & n & E & -> & -> & Len)].
    + rewrite Hlast. exists Break. now rewrite up_to_room.
    + exists Return. rewrite E, app_assoc.
      now rewrite (up_to_first_seen_full _ _ _ Len).
  - destruct (Hp page ltac:(lia)) as (W & hrefs & Els).
    change (S (S last) + extra) with (S (S last + extra)).
    cbn [pages_loop]. unfold visit_page. rewrite W, Els.
    destruct (scan_elements max_links (map Ok hrefs) (first_seen read))
      as [s bl] eqn:Sc.
    rewrite listing_hrefs_S. unfold page_hrefs at 1. rewrite Els.
    destruct (scan_elements_plain _ _ _ _ _ _ eq_refl Hroom Sc)
      as [(-> & -> & Rm)|(-> & hs1 & hs2 & n & E & -> & -> & Len)].
    + rewrite (Hnext page) by lia. rewrite app_assoc.
      apply IH; try assumption.
      * intros i Hi. apply Hp. lia.
      * intros i Hi. apply Hnext. lia.
      * now replace (S page + last) with (page + S last) by lia.
    + exists Return. rewrite E, <- app_assoc, app_assoc.
      now rewrite (up_to_first_seen_full _ _ _ Len).
Qed.

(** X3: on a listing of [last + 1] pages where every wait and every read
    succeeds, every page before the last has a working next control and
    the last one ends the loop, [get_book_links] returns every link of
    every page, each once and in the order of first appearance, cut to
    the first [max_links] when a bound of at least 1 is given. *)
Theorem get_book_links_complete (drv : listing_browser) (max_links : option Z)
    (last fuel : nat) :
  (forall n, max_links = Some n -> (1 <= n)%Z) ->
  (forall i, i <= last ->
     items_wait (drv i) = Ok tt /\
     exists hrefs, link_elements (drv i) = Ok (map Ok hrefs)) ->
  (forall i, i < last -> advance (drv i) = Next) ->
  advance (drv last) = Break ->
  last < fuel ->
  get_book_links fuel drv max_links =
    Some (Ok (up_to max_links (first_seen (listing_hrefs drv 0 (S last))))).
Proof.
  intros Hmax Hp Hnext Hlast Hfuel.
  destruct (pages_loop_plain drv max_links (fuel - S last) last 0 [])
    as [sig L].
  - intros i Hi. apply Hp. lia.
  - intros i Hi. apply Hnext. lia.
  - assumption.
  - destruct max_links as [n|]; simpl; [|exact I].
    specialize (Hmax n eq_refl). lia.
  - unfold get_book_links.
    replace fuel with (S last + (fuel - S last)) by lia.
    change (first_seen []) with (@nil string) in L. rewrite L.
    now destruct sig.
Qed.

Lemma get_book_links_complete_witness :
  get_book_links 5 two_pages (Some 3%Z) =
    Some (Ok (up_to (Some 3%Z) (first_seen (listing_hrefs two_pages 0 2)))).
Proof.
  apply (get_book_links_complete two_pages (Some 3%Z) 1 5).
  - intros n [= <-]. lia.
  - intros [|[|i]] Hi; [| |lia]; (split; [reflexivity|]).
    + exists [Some "A"; Some "B"; Some "C"]. reflexivity.
    + exists [Some "C"; Some "D"]. reflexivity.
  - intros [|i] Hi; [reflexivity | lia].
  - reflexivity.
  - lia.
Defined.

Example two_pages_cut :
  up_to (Some 3%Z) (first_seen (listing_hrefs two_pages 0 2)) = ["A"; "B"; "C"] /\
  up_to None (first_seen (listing_hrefs two_pages 0 2)) = ["A"; "B"; "C"; "D"].
Proof. split; reflexivity. Qed.

Lemma scan_elements_app (max_links : option Z)
    (pre rest : list (outcome (option string))) :
  forall (book_links book_links' : list string),
    scan_elements max_links pre book_links = (Next, book_links') ->
    scan_elements max_links (pre ++ rest) book_links =
      scan_elements max_links rest book_links'.
Proof.
  induction pre as [|[href|] pre IH]; intros bl bl' H; simpl in *.
  - now injection H as <-.
  - destruct (fresh_href href bl) as [h|]; [|now apply IH].
    destruct (limit_reached max_links (bl ++ [h])); [discriminate|].
    now apply IH.
  - discriminate.
Qed.

(** X4: when reading the [href] of an element raises in the middle of a
    page, [get_book_links] returns what it had collected up to that
    element, links of the same page included; the elements after it are
    not read. *)
Theorem get_book_links_stale_element (drv : listing_browser)
    (max_links : option Z) (page : nat) (book_links book_links' : list string)
    (pre post : list (outcome (option string))) (fuel : nat) :
  arrives drv max_links page book_links ->
  items_wait (drv page) = Ok tt ->
  link_elements (drv page) = Ok (pre ++ Raised :: post) ->
  scan_elements max_links pre book_links = (Next, book_links') ->
  page < fuel ->
  get_book_links fuel drv max_links = Some (Ok book_links').
Proof.
  intros A W Els Sc F.
  apply (get_book_links_returns drv max_links page book_links Raise);
    try assumption; [|discriminate].
  unfold visit_page. rewrite W, Els.
  now rewrite (scan_elements_app _ _ _ _ _ Sc).
Qed.

Lemma get_book_links_stale_element_witness :
  get_book_links 1 stale_third None = Some (Ok ["A"; "B"]).
Proof.
  apply (get_book_links_stale_element stale_third None 0 [] ["A"; "B"]
           [Ok (Some "A"); Ok (Some "B")] [Ok (Some "D")] 1).
  - constructor.
  - reflexivity.
  - reflexivity.
  - reflexivity.
  - lia.
Defined.

(** X5: the loop goes on to a next page exactly when the next control is
    found clickable, has no [disabled] attribute (whatever its value),
    its [aria-disabled] is not the text "true", and the click does not
    raise; in every other case, exceptions included, the loop ends by
    [break] and never by an error. *)
Theorem advance_next_iff (p : listing_page) :
  (advance p = Next \/ advance p = Break) /\
  (advance p = Next <->
   exists b aria,
     next_wait p = Ok b /\ attr_disabled b = Ok None /\
     attr_aria_disabled b = Ok aria /\ aria <> Some "true" /\
     click b = Ok tt).
Proof.
  unfold advance, is_disabled, bind.
  destruct (next_wait p) as [b|].
  2:{ split; [now right|]. split; [discriminate|].
      intros (b & aria & H & _); discriminate. }
  destruct (attr_disabled b) as [[d|]|] eqn:D.
  1,3: split; [now right|]; split; [discriminate|];
       intros (b' & aria & [= <-] & H & _); congruence.
  destruct (attr_aria_disabled b) as [aria|] eqn:A.
  2:{ split; [now right|]. split; [discriminate|].
      intros (b' & aria & [= <-] & _ & H & _); congruence. }
  destruct (match aria with
            | Some s => String.eqb s "true"
            | None => false
            end) eqn:T.
  { split; [now right|]. split; [discriminate|].
    intros (b' & aria' & [= <-] & _ & H & N & _).
    assert (aria' = aria) as -> by congruence.
    destruct aria as [s|]; [|discriminate].
    apply String.eqb_eq in T. now subst. }
  destruct (click b) as [[]|] eqn:C.
  - split; [now left|]. split; [|reflexivity].
    intros _. exists b, aria. repeat split; try assumption.
    intros ->. discriminate.
  - split; [now right|]. split; [discriminate|].
    intros (b' & aria' & [= <-] & _ & _ & _ & H); congruence.
Qed.

(** ** Strings, continued *)

Lemma append_assoc (a b c : string) : ((a ++ b) ++ c = a ++ (b ++ c))%string.
Proof. induction a as [|x a IH]; simpl; [reflexivity | now rewrite IH]. Qed.

Lemma startswith_iff (p s : string) :
  PyStr.startswith p s = true <-> exists r, s = (p ++ r)%string.
Proof.
  revert s. induction p as [|a p IH]; intros s; simpl.
  - split; [intros _; now exists s | reflexivity].
  - destruct s as [|b s].
    + split; [discriminate | intros [r H]; discriminate].
    + rewrite andb_true_iff, Ascii.eqb_eq, IH. split.
      * intros [-> [r ->]]. now exists r.
      * intros [r [= -> ->]]. split; [reflexivity | now exists r].
Qed.

Lemma contains_iff (p s : string) :
  PyStr.contains p s = true <-> exists a b, s = (a ++ p ++ b)%string.
Proof.
  split.
  - induction s as [|c s IH].
    + simpl. rewrite orb_false_r. intros H.
      apply startswith_iff in H as [r ->]. now exists EmptyString, r.
    + simpl. rewrite orb_true_iff. intros [H|H].
      * apply startswith_iff in H as [r ->]. now exists EmptyString, r.
      * destruct (IH H) as (a & b & ->). now exists (String c a), b.
  - intros (a & b & ->). induction a as [|c a IH].
    + apply startswith_contains, startswith_iff. now exists b.
    + simpl. rewrite IH. apply orb_true_r.
Qed.

(** X6: the test [text.startswith(fmt) or fmt in text] holds exactly when
    the label occurs somewhere in the text of the button; the test of
    the prefix adds nothing to the test of the occurrence. *)
Theorem matches_iff_occurs (fmt text : string) :
  (matches fmt text = true <-> exists a b, text = (a ++ fmt ++ b)%string) /\
  matches fmt text = PyStr.contains fmt text.
Proof.
  split; [|apply matches_contains].
  rewrite matches_contains. apply contains_iff.
Qed.

Lemma contains_trans (p q s : string) :
  PyStr.contains p q = true -> PyStr.contains q s = true ->
  PyStr.contains p s = true.
Proof.
  rewrite !contains_iff. intros (a & b & ->) (c & d & ->).
  exists (c ++ a)%string, (b ++ d)%string.
  now rewrite !append_assoc.
Qed.

Lemma lstrip_rstrip_lstrip (s : string) :
  PyStr.lstrip (PyStr.rstrip (PyStr.lstrip s)) = PyStr.rstrip (PyStr.lstrip s).
Proof.
  induction s as [|c s IH]; [reflexivity|].
  cbn [PyStr.lstrip]. destruct (PyStr.isspace c) eqn:E; [assumption|].
  cbn [PyStr.rstrip]. rewrite E.
  destruct (PyStr.rstrip s); cbn [PyStr.lstrip]; now rewrite E.
Qed.

Lemma rstrip_idem (s : string) :
  PyStr.rstrip (PyStr.rstrip s) = PyStr.rstrip s.
Proof.
  induction s as [|c s IH]; [reflexivity|].
  cbn [PyStr.rstrip]. destruct (PyStr.rstrip s) as [|d r] eqn:R.
  - destruct (PyStr.isspace c) eqn:E; [reflexivity|].
    cbn [PyStr.rstrip]. now rewrite E.
  - change (PyStr.rstrip (String c (String d r)))
      with (match PyStr.rstrip (String d r) with
            | EmptyString =>
                if PyStr.isspace c then EmptyString else String c EmptyString
            | String _ _ as r' => String c r'
            end).
    now rewrite IH.
Qed.

(** Stripping twice is stripping once. *)
Lemma strip_idem (s : string) : PyStr.strip (PyStr.strip s) = PyStr.strip s.
Proof.
  unfold PyStr.strip. now rewrite lstrip_rstrip_lstrip, rstrip_idem.
Qed.

Lemma clean_price_clean (fmt text : string) :
  clean_price fmt text <> "" /\
  PyStr.strip (clean_price fmt text) = clean_price fmt text.
Proof.
  unfold clean_price.
  destruct (PyStr.strip (PyStr.remove fmt text)) as [|c r] eqn:E; simpl.
  - split; [discriminate | reflexivity].
  - split; [discriminate|]. rewrite <- E. apply strip_idem.
Qed.

(** ** The extractor *)

(** X7: the labels overlap.  A button whose text contains "Very Good"
    also matches "Good", and one that contains "Like New" also matches
    "New"; when such a button is the last of the page, the row holds
    under the shorter label what is left of that button's text once the
    shorter label is taken out. *)
Theorem overlapping_labels (p : detail_page) (link : string) (row : Dict.t)
    (pre : list string) (b outer inner : string) :
  In (outer, inner) [("Very Good", "Good"); ("Like New", "New")] ->
  scrape_link p link = Ok row ->
  price_buttons p = Ok (map Ok pre ++ [Ok b]) ->
  matches outer (PyStr.strip b) = true ->
  matches inner (PyStr.strip b) = true /\
  Dict.get inner row = Some (PyStr (clean_price inner (PyStr.strip b))).
Proof.
  intros Hpair S B M.
  assert (Hin : In inner formats /\ PyStr.contains inner outer = true).
  { destruct Hpair as [[= <- <-]|[[= <- <-]|[]]]; split;
      solve [simpl; tauto | reflexivity]. }
  destruct Hin as [F C].
  assert (Mi : matches inner (PyStr.strip b) = true).
  { rewrite matches_contains in *. exact (contains_trans _ _ _ C M). }
  split; [assumption|].
  apply scrape_link_ok in S as (t & _ & _ & _ & ->).
  rewrite get_make_row_format by (try apply keys_prices_of; assumption).
  unfold prices_of. rewrite B.
  apply get_read_buttons_last; try assumption. intros raw [].
Qed.

Lemma overlapping_labels_witness :
  matches "Good" (PyStr.strip "Very Good $5") = true /\
  Dict.get "Good"
    (make_row "Dune" (PyStr "N/A") "u"
       (prices_of (book_page "Dune" Raised ["Good $3"; "Very Good $5"])))
  = Some (PyStr (clean_price "Good" (PyStr.strip "Very Good $5"))).
Proof.
  apply (overlapping_labels
           (book_page "Dune" Raised ["Good $3"; "Very Good $5"]) "u" _
           ["Good $3"] "Very Good $5" "Very Good" "Good").
  - simpl. tauto.
  - reflexivity.
  - reflexivity.
  - reflexivity.
Defined.

Lemma get_In (k : string) (d : Dict.t) (v : pyval) :
  Dict.get k d = Some v -> In (k, v) d.
Proof.
  induction d as [|[k0 v0] d IH]; simpl; [discriminate|].
  destruct (String.eqb k k0) eqn:E.
  - apply String.eqb_eq in E. intros [= ->]. left. now subst.
  - intros H. right. now apply IH.
Qed.

Lemma key_get (k : string) (d : Dict.t) :
  In k (Dict.keys d) -> exists v, Dict.get k d = Some v.
Proof.
  intros H. destruct (Dict.get k d) as [v|] eqn:E; [now exists v|].
  exfalso. unfold Dict.keys in H. apply in_map_iff in H as [[k0 v0] [<- Hin]].
  induction d as [|[k1 v1] d IH]; [destruct Hin|].
  simpl in E. destruct (String.eqb k0 k1) eqn:K; [discriminate|].
  destruct Hin as [[= -> ->]|Hin]; [now rewrite String.eqb_refl in K|].
  now apply IH.
Qed.

Lemma initial_prices_stored (k : string) (v : pyval) :
  Dict.get k initial_prices = Some v -> stored_price v.
Proof.
  intros H. apply get_In in H.
  repeat (destruct H as [[= <- <-]|H];
          [exists NA; split; [reflexivity|split; [discriminate|reflexivity]]|]).
  destruct H.
Qed.

Lemma read_buttons_stored (k : string) (btns : list (outcome string)) :
  forall d : Dict.t,
    (forall v, Dict.get k d = Some v -> stored_price v) ->
    forall v, Dict.get k (snd (read_buttons btns d)) = Some v -> stored_price v.
Proof.
  induction btns as [|[raw|] btns IH]; intros d H v; simpl; try apply H.
  apply IH. intros w. unfold store_formats. rewrite get_store_in.
  destruct (py_in k formats && matches k (PyStr.strip raw)); [|apply H].
  intros [= <-]. eexists. split; [reflexivity|]. apply clean_price_clean.
Qed.

(** X8: under each of the eight formats a row holds a text that is not
    empty and has no space at either end: the stripped rest of a button
    text, or "N/A".  No price cell is left blank. *)
Theorem prices_never_blank (p : detail_page) (link : string) (row : Dict.t)
    (fmt : string) :
  scrape_link p link = Ok row ->
  In fmt formats ->
  exists s,
    Dict.get fmt row = Some (PyStr s) /\ s <> "" /\ PyStr.strip s = s.
Proof.
  intros S F. apply scrape_link_ok in S as (t & _ & _ & _ & ->).
  rewrite get_make_row_format by (try apply keys_prices_of; assumption).
  destruct (key_get fmt (prices_of p)) as [v G];
    [now rewrite keys_prices_of|].
  assert (St : stored_price v).
  { revert G. unfold prices_of.
    destruct (price_buttons p) as [btns|]; [|apply initial_prices_stored].
    apply read_buttons_stored. apply initial_prices_stored. }
  destruct St as (s & -> & Hs). now exists s.
Qed.

Lemma prices_never_blank_witness :
  exists s,
    Dict.get "Good"
      (make_row "Dune" (PyStr "4.5") "u" (prices_of two_buttons))
    = Some (PyStr s) /\ s <> "" /\ PyStr.strip s = s.
Proof.
  apply (prices_never_blank two_buttons "u"); [reflexivity | simpl; tauto].
Defined.

Lemma get_make_row_fixed (title : string) (rating : pyval) (link : string)
    (prices_dict : Dict.t) (k : string) :
  Dict.keys prices_dict = formats ->
  ~ In k formats ->
  Dict.get k (make_row title rating link prices_dict) =
    Dict.get k [("Title", PyStr title); ("Rating", rating); ("URL", PyStr link)].
Proof.
  intros H N. unfold make_row.
  rewrite get_update by (rewrite H; apply formats_NoDup).
  rewrite get_none_key; [reflexivity | now rewrite H].
Qed.

Lemma not_a_format (k : string) :
  In k ["Title"; "Rating"; "URL"] -> ~ In k formats.
Proof.
  intros H F. simpl in H.
  repeat (destruct H as [<-|H];
          [simpl in F; repeat (destruct F as [F|F]; [discriminate|]); exact F|]).
  exact H.
Qed.

(** X9: the row of a link holds under "URL" the link as it was given and
    under "Title" the text of the title element stripped of the space
    around it; stripping it again changes nothing. *)
Theorem title_and_url (p : detail_page) (link : string) (row : Dict.t) :
  scrape_link p link = Ok row ->
  Dict.get "URL" row = Some (PyStr link) /\
  exists t title,
    title_text p = Ok t /\ title = PyStr.strip t /\
    Dict.get "Title" row = Some (PyStr title) /\ PyStr.strip title = title.
Proof.
  intros S. apply scrape_link_ok in S as (t & _ & _ & T & ->).
  rewrite !get_make_row_fixed
    by (try apply keys_prices_of; apply not_a_format; simpl; tauto).
  split; [reflexivity|].
  exists t, (PyStr.strip t). repeat split; try assumption. apply strip_idem.
Qed.

Lemma title_and_url_witness :
  Dict.get "URL" (make_row "Dune" (PyStr "4.5") "u" (prices_of two_buttons))
    = Some (PyStr "u") /\
  exists t title,
    title_text two_buttons = Ok t /\ title = PyStr.strip t /\
    Dict.get "Title" (make_row "Dune" (PyStr "4.5") "u" (prices_of two_buttons))
      = Some (PyStr title) /\
    PyStr.strip title = title.
Proof.
  apply (title_and_url two_buttons "u"). reflexivity.
Defined.

(** ** The links visited and the rows *)

(** X10: with a bound [max_links >= 0], [scrape_book_details] sends the
    browser to the first [max_links] links of the list, in order, to each
    once whether it fails or not, and to no other; the rows are at most
    [max_links]. *)
Theorem scrape_visits_first (drv : detail_browser) (links : list string) (n : Z) :
  (0 <= n)%Z ->
  history (scrape_run drv links (Some n)) = firstn (Z.to_nat n) links /\
  (Z.of_nat (length (scrape_book_details drv links (Some n))) <= n)%Z.
Proof.
  intros Hn. rewrite scrape_run_history. unfold limit_links, slice_to.
  destruct (0 <=? n)%Z eqn:E; [|lia]. split; [reflexivity|].
  unfold scrape_book_details, scrape_run, limit_links, slice_to. rewrite E.
  assert (G : forall ls i st,
             length (results (details_loop drv i ls st)) <=
             length (results st) + length ls).
  { induction ls as [|l ls IH]; intros i st; simpl; [lia|].
    specialize (IH (S i) (visit_link drv i l st)). simpl in IH.
    destruct (scrape_link (drv i l) l); [rewrite length_app in IH; simpl in IH|];
      lia. }
  specialize (G (firstn (Z.to_nat n) links) 1 fresh_run). simpl in G.
  pose proof (firstn_le_length (Z.to_nat n) links). lia.
Qed.

Lemma scrape_visits_first_witness :
  history (scrape_run shop ["a"; "bad"; "c"] (Some 2%Z)) =
    firstn (Z.to_nat 2) ["a"; "bad"; "c"] /\
  (Z.of_nat (length (scrape_book_details shop ["a"; "bad"; "c"] (Some 2%Z))) <= 2)%Z.
Proof.
  apply (scrape_visits_first shop ["a"; "bad"; "c"] 2). lia.
Defined.

(** X11: a negative [max_links] does not stop the run: as [links[:n]]
    does, it leaves out the last [-n] links and the others are visited. *)
Theorem scrape_negative_bound (drv : detail_browser) (links : list string) (n : Z) :
  (n < 0)%Z ->
  history (scrape_run drv links (Some n)) =
    firstn (length links - Z.to_nat (- n)) links.
Proof.
  intros Hn. rewrite scrape_run_history. unfold limit_links, slice_to.
  destruct (0 <=? n)%Z eqn:E; [lia | reflexivity].
Qed.

Lemma scrape_negative_bound_witness :
  history (scrape_run shop ["a"; "bad"; "c"] (Some (-1)%Z)) =
    firstn (length ["a"; "bad"; "c"] - Z.to_nat (- (-1))) ["a"; "bad"; "c"].
Proof.
  apply (scrape_negative_bound shop ["a"; "bad"; "c"] (-1)). lia.
Defined.

Lemma details_loop_urls (drv : detail_browser) (links : list string) :
  forall i : nat,
    map (Dict.get "URL") (results (details_loop drv i links fresh_run)) =
      map (fun l => Some (PyStr l)) (kept_links drv i links).
Proof.
  induction links as [|l links IH]; intros i; simpl; [reflexivity|].
  rewrite details_loop_results, map_app, IH. simpl.
  destruct (scrape_link (drv i l) l) as [row|] eqn:S; [|reflexivity].
  simpl. f_equal. f_equal.
  apply scrape_link_ok in S as (t & _ & _ & _ & ->).
  rewrite get_make_row_fixed
    by (try apply keys_prices_of; apply not_a_format; simpl; tauto).
  reflexivity.
Qed.

Lemma kept_links_sub (drv : detail_browser) (links : list string) :
  forall i : nat,
    (forall l, In l (kept_links drv i links) -> In l links) /\
    (NoDup links -> NoDup (kept_links drv i links)) /\
    length (kept_links drv i links) <= length links.
Proof.
  induction links as [|l links IH]; intros i; simpl.
  - repeat split; [tauto | constructor | lia].
  - destruct (IH (S i)) as (Hin & Hnd & Hlen).
    destruct (scrape_link (drv i l) l).
    + repeat split.
      * intros x [<-|H]; [now left | right; now apply Hin].
      * intros N. inversion N as [|? ? Hnot N']; subst.
        constructor; [intros H; apply Hnot; now apply Hin | now apply Hnd].
      * simpl. lia.
    + repeat split.
      * intros x H. right. now apply Hin.
      * intros N. inversion N; subst. now apply Hnd.
      * lia.
Qed.

(** X12: the rows come in the order of the links and there is one for
    each link whose page could be read: the "URL" fields of the rows are
    those links, in order.  So there are no more rows than links, and
    when no link fails the "URL" fields are the links themselves. *)
Theorem rows_follow_links (drv : detail_browser) (links : list string) :
  let rows := scrape_book_details drv links None in
  map (Dict.get "URL") rows =
    map (fun l => Some (PyStr l)) (kept_links drv 1 links) /\
  length rows <= length links /\
  ((forall i l, scrape_link (drv i l) l <> Raised) ->
   map (Dict.get "URL") rows = map (fun l => Some (PyStr l)) links).
Proof.
  cbv zeta. unfold scrape_book_details, scrape_run. simpl limit_links.
  pose proof (details_loop_urls drv links 1) as U.
  split; [exact U|]. split.
  - rewrite <- (length_map (Dict.get "URL")), U, length_map.
    apply kept_links_sub.
  - intros Hok. rewrite U. f_equal. clear U.
    generalize 1. induction links as [|l links IH]; intros i; simpl;
      [reflexivity|].
    destruct (scrape_link (drv i l) l) eqn:S; [now rewrite IH|].
    now contradiction (Hok i l).
Qed.

Example rows_follow_links_shop :
  kept_links shop 1 ["a"; "bad"; "c"] = ["a"; "c"].
Proof. reflexivity. Qed.

(** ** The writer *)

Lemma get_own_keys (row : Dict.t) :
  NoDup (Dict.keys row) ->
  map (fun k => match Dict.get k row with
                | Some v => field_text v
                | None => ""
                end) (Dict.keys row) = row_fields row.
Proof.
  unfold Dict.keys, row_fields.
  induction row as [|[k v] row IH]; intros N; simpl; [reflexivity|].
  inversion N as [|? ? Hnot N']; subst.
  rewrite String.eqb_refl. f_equal. rewrite <- (IH N').
  apply map_ext_in. intros k' Hk'.
  destruct (String.eqb k' k) eqn:E; [|reflexivity].
  apply String.eqb_eq in E. now subst.
Qed.

Lemma dict_to_list_fields (row : Dict.t) :
  NoDup (Dict.keys row) ->
  dict_to_list (Dict.keys row) row = Ok (row_fields row).
Proof.
  intros N. unfold dict_to_list.
  replace (forallb (fun k => py_in k (Dict.keys row)) (Dict.keys row)) with true.
  - now rewrite get_own_keys.
  - symmetry. apply forallb_forall. intros k. apply py_in_In.
Qed.

Lemma writerows_fields (fieldnames : list string) (data : list Dict.t) :
  forall file : csv_file,
    NoDup fieldnames ->
    (forall row, In row data -> Dict.keys row = fieldnames) ->
    writerows fieldnames data file = (Ok tt, file ++ map row_fields data).
Proof.
  induction data as [|row data IH]; intros file N H; simpl.
  - now rewrite app_nil_r.
  - assert (K : Dict.keys row = fieldnames) by (apply H; now left).
    rewrite <- K at 1. rewrite dict_to_list_fields by now rewrite K.
    rewrite IH by (try assumption; intros r Hr; apply H; now right).
    now rewrite <- app_assoc.
Qed.

Lemma header_NoDup : NoDup header.
Proof.
  unfold header, formats.
  repeat (constructor; [simpl; intros H; repeat (destruct H as [H|H]; [discriminate|]); exact H|]).
  constructor.
Qed.


(** X13: when [scrape_book_details] gives at least one row, [save_to_csv]
    ends without an error and the file is the header followed by one line
    for each row, in order, with the values of the row in the order of
    the header, a [None] written as the empty field. *)
Theorem save_to_csv_lines (drv : detail_browser) (links : list string)
    (max_links : option Z) :
  let rows := scrape_book_details drv links max_links in
  rows <> [] ->
  save_to_csv rows = (Ok tt, Some (header :: map row_fields rows)).
Proof.
  cbv zeta. intros Hne.
  pose proof (fun row => rows_keys drv links max_links row) as K.
  destruct (scrape_book_details drv links max_links) as [|first rest];
    [now contradiction Hne|].
  unfold save_to_csv. rewrite (K first) by now left.
  rewrite (writerows_fields header (first :: rest) [header]);
    [reflexivity | apply header_NoDup | exact K].
Qed.

Lemma save_to_csv_lines_witness :
  save_to_csv (scrape_book_details shop ["a"; "bad"; "c"] None) =
    (Ok tt,
     Some (header :: map row_fields (scrape_book_details shop ["a"; "bad"; "c"] None))).
Proof.
  apply (save_to_csv_lines shop ["a"; "bad"; "c"] None). discriminate.
Defined.






(** ** [main] *)








Example main_small_site :
  option_map written (main 5 small_site) =
    Some (Some (header ::
                [["Dune"; "4.5"; "A"; "N/A"; "N/A"; "N/A"; "N/A"; "$5"; "$3"; "N/A"; "N/A"];
                 ["Dune"; "4.5"; "B"; "N/A"; "N/A"; "N/A"; "N/A"; "$5"; "$3"; "N/A"; "N/A"];
                 ["Dune"; "4.5"; "C"; "N/A"; "N/A"; "N/A"; "N/A"; "$5"; "$3"; "N/A"; "N/A"];
                 ["Dune"; "4.5"; "D"; "N/A"; "N/A"; "N/A"; "N/A"; "$5"; "$3"; "N/A"; "N/A"]])).
Proof. reflexivity. Qed.

(** ** Buttons that fail *)

Lemma read_buttons_until_raise (pre : list string) (post : list (outcome string)) :
  forall d : Dict.t,
    snd (read_buttons (map Ok pre ++ Raised :: post) d) =
    snd (read_buttons (map Ok pre) d).
Proof.
  induction pre as [|b pre IH]; intros d; simpl; [reflexivity | apply IH].
Qed.

(** X16: an exception among the price buttons does not cost the link its
    row.  When the buttons cannot be listed, the row is the one of the
    same page without buttons; when the text of a button cannot be read,
    the row is the one of the same page with only the buttons before it:
    what they stored is kept, the buttons after it are not read. *)
Theorem buttons_failure_keeps_row (p : detail_page) (link : string) :
  (price_buttons p = Raised ->
   scrape_link p link = scrape_link (with_buttons p (Ok [])) link) /\
  (forall pre post,
     price_buttons p = Ok (map Ok pre ++ Raised :: post) ->
     scrape_link p link = scrape_link (with_buttons p (Ok (map Ok pre))) link).
Proof.
  split.
  - intros B. unfold scrape_link, prices_of, rating_of. simpl. now rewrite B.
  - intros pre post B. unfold scrape_link, prices_of, rating_of. simpl.
    now rewrite B, read_buttons_until_raise.
Qed.

Example broken_button_row :
  option_map (fun row => (Dict.get "Good" row, Dict.get "New" row))
    (match scrape_link broken_button "u" with
     | Ok row => Some row
     | Raised => None
     end)
  = Some (Some (PyStr "$3"), Some (PyStr "N/A")).
Proof. reflexivity. Qed.
